(** * Conditional fixture generation (sktime/utils/_testing/_conditional_fixtures.py)

    A shallow embedding of [create_conditional_fixtures_and_names] and of its
    helpers [_check_list_of_str] and [_remove_single], with the properties
    the specification states about them.

    Python objects are a small inductive universe, dictionaries are finite
    maps, a call either returns or raises, and a one-pass iterator (a Python
    generator, [zip], [itertools.starmap]) is the finite list of items it
    yields together with the exception, if any, that ends it. *)

From Stdlib Require Import ZArith String Ascii List DecimalString.
From stdpp Require Import base option list gmap strings.

Local Open Scope string_scope.
Local Open Scope list_scope.

(** ** Python objects *)

(** The objects that fixture variables, candidate values, display names and
    generator results range over.  [PErr] is an instance of the class
    [FixtureGenerationError]: its attribute [fixture_name] and the message
    passed to [Exception.__init__] (its [args[0]]). *)
#[warnings="-register-all"]
Inductive value : Type :=
  | PNone
  | PInt (n : Z)
  | PStr (s : string)
  | PTuple (elts : list value)
  | PList (elts : list value)
  | PErr (fixture_name : string) (message : string).

(** [class FixtureGenerationError(Exception)], method [__init__]:
    [self.fixture_name = fixture_name; fixture_name = fixture_name + " ";
     super().__init__(f"fixture {fixture_name}failed to generate")]. *)
Definition FixtureGenerationError (fixture_name : string) : value :=
  let fixture_name' := fixture_name +:+ " " in
  PErr fixture_name ("fixture " +:+ fixture_name' +:+ "failed to generate").

(** [copy.deepcopy].  Numbers, strings and [None] are returned as they are,
    tuples and lists are copied element by element.  An exception instance
    is rebuilt from [__reduce_ex__], that is the class applied to [args]
    followed by an update of [__dict__]: the class is called with the old
    message as its [fixture_name] argument, which wraps the message once
    more, and the attribute [fixture_name] is then restored from the saved
    [__dict__]. *)
Fixpoint deepcopy (v : value) : value :=
  match v with
  | PTuple l => PTuple (map deepcopy l)
  | PList l => PList (map deepcopy l)
  | PErr n m =>
      match FixtureGenerationError m with
      | PErr _ m' => PErr n m'
      | other => other
      end
  | _ => v
  end.

(** *** [str] and [repr] *)

Definition str_of_Z (n : Z) : string := NilZero.string_of_int (Z.to_int n).

Definition squote : ascii := ascii_of_nat 39.
Definition dquote : ascii := ascii_of_nat 34.
Definition backslash : ascii := ascii_of_nat 92.

Definition hex_digit (n : nat) : ascii :=
  nth n (list_ascii_of_string "0123456789abcdef") "0"%char.

Definition has_char (c : ascii) (s : string) : bool :=
  existsb (Ascii.eqb c) (list_ascii_of_string s).

(** One character of [repr] of a [str] quoted with [q]; characters are code
    points below 256. *)
Definition repr_char (q c : ascii) : string :=
  let n := nat_of_ascii c in
  if Ascii.eqb c q || Ascii.eqb c backslash then String backslash (String c EmptyString)
  else if Nat.eqb n 9 then String backslash "t"
  else if Nat.eqb n 10 then String backslash "n"
  else if Nat.eqb n 13 then String backslash "r"
  else if Nat.ltb n 32 || Nat.eqb n 127 || (Nat.leb 128 n && Nat.leb n 160) || Nat.eqb n 173
       then String backslash
              (String "x" (String (hex_digit (n / 16)) (String (hex_digit (n mod 16)) EmptyString)))
  else String c EmptyString.

Definition repr_str (s : string) : string :=
  let q := if has_char squote s && negb (has_char dquote s) then dquote else squote in
  String q (String.concat EmptyString (map (repr_char q) (list_ascii_of_string s)) +:+ String q EmptyString).

Fixpoint py_repr (v : value) : string :=
  match v with
  | PNone => "None"
  | PInt n => str_of_Z n
  | PStr s => repr_str s
  | PTuple l =>
      match l with
      | [x] => "(" +:+ py_repr x +:+ ",)"
      | _ => "(" +:+ String.concat ", " (map py_repr l) +:+ ")"
      end
  | PList l => "[" +:+ String.concat ", " (map py_repr l) +:+ "]"
  | PErr _ m => "FixtureGenerationError(" +:+ repr_str m +:+ ")"
  end.

(** [str(x)]: a string is itself, an exception with one argument is that
    argument, everything else is its [repr]. *)
Definition py_str (v : value) : string :=
  match v with
  | PStr s => s
  | PErr _ m => m
  | _ => py_repr v
  end.

(** [iter(x)]: the items of a tuple or a list, the characters of a string;
    [None] for an object that is not iterable. *)
Definition py_iter (v : value) : option (list value) :=
  match v with
  | PTuple l | PList l => Some l
  | PStr s => Some (map (fun c => PStr (String c EmptyString)) (list_ascii_of_string s))
  | _ => None
  end.

(** [hash(x)] succeeds: lists are unhashable, a tuple is hashable when its
    items are. *)
Fixpoint hashable (v : value) : bool :=
  match v with
  | PList _ => false
  | PTuple l => forallb hashable l
  | _ => true
  end.

Definition isinstance_list (v : value) : bool :=
  match v with PList _ => true | _ => false end.

Definition isinstance_str (v : value) : bool :=
  match v with PStr _ => true | _ => false end.

(** ** Exceptions, calls and iterators *)

(** The [TypeError]s that the function and the interpreter raise here. *)
Inductive type_error : Type :=
  | must_be_a_list_of_str (name : string)
  | unhashable_type
  | multiple_values_for_argument (name : string)
  | not_iterable
  | wrong_number_of_arguments
  | join_expected_str.

Inductive exn : Type :=
  | TypeError (cause : type_error).

(** The outcome of a call: it returns a value or raises. *)
Inductive result (A : Type) : Type :=
  | Returns (a : A)
  | Raises (e : exn).
Arguments Returns {A} a.
Arguments Raises {A} e.

#[global] Instance result_bind : MBind result := fun A B f r =>
  match r with
  | Returns a => f a
  | Raises e => Raises e
  end.

#[global] Instance result_fmap : FMap result := fun A B f r =>
  match r with
  | Returns a => Returns (f a)
  | Raises e => Raises e
  end.

(** A one-pass iterator: the items that successive [next] calls yield, then
    [StopIteration] ([raised = None]) or the exception that [next] raises. *)
Record iterator (A : Type) : Type := Iterator {
  yielded : list A;
  raised : option exn
}.
Arguments Iterator {A} yielded raised.
Arguments yielded {A} i.
Arguments raised {A} i.

Definition iter_of_list {A} (l : list A) : iterator A := Iterator l None.

Definition iter_raise {A} (e : exn) : iterator A := Iterator [] (Some e).

(** [first], and [second] once [first] is exhausted; an exception of [first]
    ends the whole. *)
Definition iter_chain {A} (first second : iterator A) : iterator A :=
  match raised first with
  | Some _ => first
  | None => Iterator (yielded first ++ yielded second) (raised second)
  end.

(** A generator body [for x in source: yield from body(x)]. *)
Definition iter_for {A B} (source : iterator A) (body : A -> iterator B) : iterator B :=
  foldr (fun x rest => iter_chain (body x) rest) (Iterator [] (raised source)) (yielded source).

(** An exception raised in a generator body before its first [yield]. *)
Definition iter_of_result {A} (r : result (iterator A)) : iterator A :=
  match r with
  | Returns it => it
  | Raises e => iter_raise e
  end.

(** [itertools.starmap(f, source)] for an [f] that may raise. *)
Definition starmap {A B} (f : A -> result B) (source : iterator A) : iterator B :=
  iter_for source (fun x => iter_of_result (y ← f x; Returns (iter_of_list [y]))).

(** The caller receives two lazy iterators, the values and the names, and
    drains one of them, to its end or until it raises, and then the other. *)
Inductive drain_order : Type :=
  | values_first
  | names_first.

(** [itertools.tee(source)]: two iterators over the one underlying iterator.
    Both yield the items of [source].  The exception that ends [source] is
    raised once, to the iterator that first asks for the item after the last
    one: that is the iterator drained first, provided its consumer
    [reached_end]; the underlying iterator is finished after that, and the
    other iterator ends with [StopIteration].  When the consumer of the
    iterator drained first stopped before the end, the exception is still to
    come for the other. *)
Definition tee {A} (source : iterator A) (drained_first : drain_order) (reached_end : bool)
  : iterator A * iterator A :=
  let second := Iterator (yielded source) (if reached_end then None else raised source) in
  match drained_first with
  | values_first => (source, second)
  | names_first => (second, source)
  end.

(** Whether [starmap(f, source)], drained, asks for the item after the last
    one of [source]: [f] raises on none of the items. *)
Definition reaches_end {A B} (f : A -> result B) (source : iterator A) : bool :=
  forallb (fun x => match f x with Returns _ => true | Raises _ => false end) (yielded source).

(** What [get_fixtures] returns in each component: an object the generator
    returned (or a list built from one), or a [starmap] iterator. *)
Inductive iterable : Type :=
  | Obj (v : value)
  | Lazy (it : iterator value).

(** The pair [fixture_prod, fixture_names] that [get_fixtures] returns: two
    iterables that are iterated independently of each other, or the two
    [starmap] iterators over one and the same one-pass iterator, which
    yields [items]. *)
Inductive fixtures_and_names : Type :=
  | Two (fixture_prod fixture_names : iterable)
  | SharedStarmaps (items : list value).

Definition to_iterator (x : iterable) : result (iterator value) :=
  match x with
  | Obj v =>
      match py_iter v with
      | Some l => Returns (iter_of_list l)
      | None => Raises (TypeError not_iterable)
      end
  | Lazy it => Returns it
  end.

(** [zip] on two iterators: [next] of the first, then of the second, until
    one of them is exhausted or raises. *)
Fixpoint zip_items (xs ys : list value) (ex ey : option exn) : iterator (value * value) :=
  match xs with
  | [] => Iterator [] ex
  | x :: xs' =>
      match ys with
      | [] => Iterator [] ey
      | y :: ys' =>
          let rest := zip_items xs' ys' ex ey in
          Iterator ((x, y) :: yielded rest) (raised rest)
      end
  end.

Definition py_zip (a b : iterable) : result (iterator (value * value)) :=
  ia ← to_iterator a;
  ib ← to_iterator b;
  Returns (zip_items (yielded ia) (yielded ib) (raised ia) (raised ib)).

(** A two-argument lambda applied to the unpacked [elem], as [starmap]
    does: [elem] must be an iterable of exactly two items. *)
Definition unpack2 (elem : value) : result (value * value) :=
  match py_iter elem with
  | Some [x; y] => Returns (x, y)
  | Some _ => Raises (TypeError wrong_number_of_arguments)
  | None => Raises (TypeError not_iterable)
  end.

(** [zip(starmap(lambda x, y: x, res), starmap(lambda x, y: y, res))] for a
    one-pass iterator [res] that yields [items]: the two [starmap]s draw
    from the same iterator, so the first takes the items of odd position
    and the second those of even position. *)
Fixpoint zip_shared (items : list value) : iterator (value * value) :=
  match items with
  | [] => Iterator [] None
  | e1 :: rest =>
      match unpack2 e1 with
      | Raises err => Iterator [] (Some err)
      | Returns (x, _) =>
          match rest with
          | [] => Iterator [] None
          | e2 :: rest' =>
              match unpack2 e2 with
              | Raises err => Iterator [] (Some err)
              | Returns (_, y) =>
                  let more := zip_shared rest' in
                  Iterator ((x, y) :: yielded more) (raised more)
              end
          end
      end
  end.

(** [zip(new_fixtures, new_fixture_names)]. *)
Definition zip_fixtures (fn : fixtures_and_names) : result (iterator (value * value)) :=
  match fn with
  | Two new_fixtures new_fixture_names => py_zip new_fixtures new_fixture_names
  | SharedStarmaps items => Returns (zip_shared items)
  end.

(** [dict(zip(keys, values))]: a later pair overrides an earlier one. *)
Definition dict_zip (keys : list string) (values : list value) : gmap string value :=
  foldl (fun d kv => <[kv.1 := kv.2]> d) ∅ (zip keys values).

(** [sep.join(items)], which accepts strings only. *)
Fixpoint strings_of (items : list value) : option (list string) :=
  match items with
  | [] => Some []
  | PStr s :: rest => cons s <$> strings_of rest
  | _ :: _ => None
  end.

(** [x != ""]. *)
Definition not_empty_str (x : value) : bool :=
  match x with
  | PStr s => negb (String.eqb s EmptyString)
  | _ => true
  end.

Definition py_join (sep : string) (items : list value) : result string :=
  match strings_of items with
  | Some l => Returns (String.concat sep l)
  | None => Raises (TypeError join_expected_str)
  end.

(** ** The source functions *)

(** [numpy.all] applied to a generator expression.  NumPy does not iterate a
    generator: it wraps the object in a zero-dimensional object array, whose
    reduction by [logical_and] is that one object, and a generator object is
    truthy whatever it would yield. *)
Definition np_all (genexpr : list bool) : bool := true.

(** [_check_list_of_str(obj, name)]:
    [if not isinstance(obj, list) or not np.all(isinstance(x, str) for x in obj):
       raise TypeError(f"{name} must be a list of str")
     return obj]. *)
Definition _check_list_of_str (obj : value) (name : string) : result value :=
  if negb (isinstance_list obj)
     || negb (np_all (map isinstance_str (default [] (py_iter obj))))
  then Raises (TypeError (must_be_a_list_of_str name))
  else Returns obj.

(** [_remove_single(x)] for a tuple [x]: [x[0]] if [len(x) == 1], else [x]. *)
Definition _remove_single (x : list value) : value :=
  match x with
  | [x0] => x0
  | _ => PTuple x
  end.

(** What a generator function does when called as
    [generator(test_name, **kwargs)]: it raises an [Exception], or returns
    an object of the universe [value], or returns a one-pass iterator (a
    [zip], [map] or generator object) that yields [items] and ends. *)
Inductive outcome : Type :=
  | Raise
  | Return (res : value)
  | ReturnIterator (items : list value).

Definition generator : Type := string -> gmap string value -> outcome.

(** A partial fixture tuple with the list of its display names. *)
Abbreviation fixture_and_name := (list value * list value)%type.

Section closures.
(** The variables of [create_conditional_fixtures_and_names] that its
    nested functions [get_fixtures] and [one_fixture_prod] close over. *)
Variable test_name : string.
Variable generator_dict : gmap string generator.

(** [[var for var in fixture_vars if var in generator_dict.keys()]].  The
    membership test hashes [var]; the keys are strings, so the items kept
    are strings. *)
Fixpoint registered_vars (fixture_vars : list value) : result (list string) :=
  match fixture_vars with
  | [] => Returns []
  | var :: rest =>
      if negb (hashable var) then Raises (TypeError unhashable_type)
      else
        match var with
        | PStr s =>
            if decide (is_Some (generator_dict !! s))
            then (rest' ← registered_vars rest; Returns (s :: rest'))
            else registered_vars rest
        | _ => registered_vars rest
        end
  end.

(** The loop over [fixture_sequence]:
    [if fixture_var_name in fixture_vars: ordered_fixture_vars += [fixture_var_name]]
    where [fixture_vars] is the list of strings kept above. *)
Definition ordered_fixture_vars (fixture_sequence : list value) (fixture_vars : list string)
  : list string :=
  foldl (fun ordered fixture_var_name =>
           match fixture_var_name with
           | PStr s => if decide (s ∈ fixture_vars) then ordered ++ [s] else ordered
           | _ => ordered
           end) [] fixture_sequence.

(** Lines 98 to 108: the resolution order. *)
Definition resolution_order (fixture_vars fixture_sequence : value) : result (list string) :=
  fixture_vars ← _check_list_of_str fixture_vars "fixture_vars";
  fixture_vars ← registered_vars (default [] (py_iter fixture_vars));
  match fixture_sequence with
  | PNone => Returns fixture_vars
  | _ =>
      fixture_sequence ← _check_list_of_str fixture_sequence "fixture_sequence";
      Returns (ordered_fixture_vars (default [] (py_iter fixture_sequence)) fixture_vars)
  end.

(** The [except Exception] branch of [get_fixtures]. *)
Definition generation_error (fixture_var : string) : fixtures_and_names :=
  let error := FixtureGenerationError fixture_var in
  Two (Obj (PList [error])) (Obj (PList [PStr ("Error:" +:+ fixture_var)])).

(** The last branch of [get_fixtures]:
    [fixture_prod = starmap(lambda x, y: x, res)] and
    [fixture_names = starmap(lambda x, y: y, res)], for an object [res] of
    the universe [value]: a tuple or a string gives each [starmap] an
    iterator of its own. *)
Definition starmap_branch (fixture_var : string) (res : value) : fixtures_and_names :=
  match py_iter res with
  | None => generation_error fixture_var
  | Some elems =>
      Two (Lazy (starmap (fun e => fst <$> unpack2 e) (iter_of_list elems)))
          (Lazy (starmap (fun e => snd <$> unpack2 e) (iter_of_list elems)))
  end.

(** The body of [get_fixtures(fixture_var, **kwargs)].  Everything up to
    the two [starmap] calls is inside the [try]: a missing key, an
    exception of the generator, and [starmap] given a result that is not
    iterable all end in the [except] branch.  A result that is a one-pass
    iterator is neither a tuple nor a list: the two [starmap]s of the last
    branch share it. *)
Definition get_fixtures (fixture_var : string) (kwargs : gmap string value)
  : fixtures_and_names :=
  match (generator_dict !! fixture_var : option generator) with
  | None => generation_error fixture_var
  | Some gen =>
      match gen test_name kwargs with
      | Raise => generation_error fixture_var
      | Return res =>
          match res with
          | PTuple [res0; res1] => Two (Obj res0) (Obj res1)
          | PList l => Two (Obj res) (Obj (PList (map (fun x => PStr (py_str x)) l)))
          | _ => starmap_branch fixture_var res
          end
      | ReturnIterator items => SharedStarmaps items
      end
  end.

(** The call [get_fixtures(fixture_var, **kwargs)]: a key [fixture_var] in
    [kwargs] clashes with the positional parameter of that name. *)
Definition call_get_fixtures (fixture_var : string) (kwargs : gmap string value)
  : result fixtures_and_names :=
  if decide (is_Some (kwargs !! "fixture_var"))
  then Raises (TypeError (multiple_values_for_argument "fixture_var"))
  else Returns (get_fixtures fixture_var kwargs).

(** The candidates of one variable on one branch: the pairs that the inner
    loop [for new_fixture, new_fixture_name in zip(...)] runs over. *)
Definition candidates (fixture_var : string) (kwargs : gmap string value)
  : iterator (value * value) :=
  iter_of_result (fn ← call_get_fixtures fixture_var kwargs; zip_fixtures fn).

Definition make_kwargs (old_fixture_vars : list string) (fixture : list value)
  : gmap string value :=
  if decide (length old_fixture_vars = 0) then ∅ else dict_zip old_fixture_vars fixture.

(** The generator function [one_fixture_prod]. *)
Definition one_fixture_prod (fixture_prod : iterator fixture_and_name)
    (old_fixture_vars : list string) (fixture_var : string) : iterator fixture_and_name :=
  iter_for fixture_prod (fun '(fixture, fixture_name) =>
    let kwargs := make_kwargs old_fixture_vars fixture in
    iter_for (candidates fixture_var kwargs) (fun '(new_fixture, new_fixture_name) =>
      let prod_fixture := map deepcopy fixture ++ [deepcopy new_fixture] in
      let prod_name := fixture_name ++ [new_fixture_name] in
      iter_of_list [(prod_fixture, prod_name)])).

(** The loop [for i, fixture_var in enumerate(fixture_vars)], started from
    [[((), [])]]. *)
Definition fixture_prods_and_names (fixture_vars : list string) : iterator fixture_and_name :=
  foldl (fun acc '(i, fixture_var) => one_fixture_prod acc (take i fixture_vars) fixture_var)
        (iter_of_list [([], [])])
        (imap pair fixture_vars).

Definition make_fixture_prod (p : fixture_and_name) : result value :=
  Returns (_remove_single p.1).

(** [name = [x for x in fixture_name if x != ""]; return "-".join(name)]. *)
Definition make_fixture_name (p : fixture_and_name) : result string :=
  let name := List.filter not_empty_str p.2 in
  py_join "-" name.
End closures.

(** [create_conditional_fixtures_and_names(test_name, fixture_vars,
    generator_dict, fixture_sequence=None)]; an absent [fixture_sequence]
    is [PNone].  The three results are the parameter string, the iterator
    of fixture values and the iterator of fixture names.  The two iterators
    are lazy and share the generator [fixture_prods_and_names]: they are
    given as the caller finds them who drains first the one named by
    [drained_first] and then the other.  Whether the call returns or raises,
    and the parameter string, do not depend on [drained_first]. *)
Definition create_conditional_fixtures_and_names (test_name : string) (fixture_vars : value)
    (generator_dict : gmap string generator) (fixture_sequence : value)
    (drained_first : drain_order)
  : result (string * iterator value * iterator string) :=
  fixture_vars ← resolution_order generator_dict fixture_vars fixture_sequence;
  let fixture_prods_and_names := fixture_prods_and_names test_name generator_dict fixture_vars in
  let reached_end :=
    match drained_first with
    | values_first => reaches_end make_fixture_prod fixture_prods_and_names
    | names_first => reaches_end make_fixture_name fixture_prods_and_names
    end in
  let '(fixture_prods_and_names1, fixture_prods_and_names2) :=
    tee fixture_prods_and_names drained_first reached_end in
  let fixture_prod := starmap make_fixture_prod fixture_prods_and_names1 in
  let fixture_names := starmap make_fixture_name fixture_prods_and_names2 in
  let fixture_param_str := String.concat "," fixture_vars in
  Returns (fixture_param_str, fixture_prod, fixture_names).

(** ** Vocabulary of the properties *)

(** [generated vars (fixture, names)]: the tuple [fixture] and its name list
    were built along the variables [vars], each component a copy of a
    candidate that the variable of that position yields on the branch of
    the components before it, each name the display name of that
    candidate. *)
Inductive generated (test_name : string) (generator_dict : gmap string generator)
  : list string -> fixture_and_name -> Prop :=
  | generated_nil : generated test_name generator_dict [] ([], [])
  | generated_snoc vars fixture_var fixture names new_fixture new_fixture_name :
      generated test_name generator_dict vars (fixture, names) ->
      (new_fixture, new_fixture_name)
        ∈ yielded (candidates test_name generator_dict fixture_var (make_kwargs vars fixture)) ->
      generated test_name generator_dict (vars ++ [fixture_var])
        (map deepcopy fixture ++ [deepcopy new_fixture], names ++ [new_fixture_name]).

(** The size of the conditional tree below a partial tuple: the number of
    ways to choose, for each remaining variable in turn, one of the
    candidates it yields on the branch chosen so far. *)
Fixpoint tree_size (test_name : string) (generator_dict : gmap string generator)
    (old_fixture_vars : list string) (fixture : list value) (todo : list string) : nat :=
  match todo with
  | [] => 1
  | fixture_var :: rest =>
      sum_list (map (fun c : value * value =>
                       tree_size test_name generator_dict (old_fixture_vars ++ [fixture_var])
                         (map deepcopy fixture ++ [deepcopy c.1]) rest)
                    (yielded (candidates test_name generator_dict fixture_var
                                (make_kwargs old_fixture_vars fixture))))
  end.

(** One round of the inner loop of [one_fixture_prod]: the partial tuple
    and name list extended by one candidate. *)
Definition extend (fixture : list value) (fixture_name : list value) (c : value * value)
  : fixture_and_name :=
  (map deepcopy fixture ++ [deepcopy c.1], fixture_name ++ [c.2]).

(** The rounds of the loop for the variables [todo], run on the iterator
    [acc] that the rounds for the variables [old_fixture_vars] produced. *)
Fixpoint rounds (test_name : string) (generator_dict : gmap string generator)
    (acc : iterator fixture_and_name) (old_fixture_vars todo : list string)
  : iterator fixture_and_name :=
  match todo with
  | [] => acc
  | fixture_var :: rest =>
      rounds test_name generator_dict
        (one_fixture_prod test_name generator_dict acc old_fixture_vars fixture_var)
        (old_fixture_vars ++ [fixture_var]) rest
  end.

(** The product of a list of numbers. *)
Definition product (l : list nat) : nat := foldr Nat.mul 1 l.

(** [isinstance(res, tuple) and len(res) == 2]. *)
Definition is_two_tuple (res : value) : bool :=
  match res with
  | PTuple [_; _] => true
  | _ => false
  end.

(** [fixture_vars] without the items equal to the string [m]. *)
Definition is_var (m : string) (x : value) : bool :=
  match x with
  | PStr s => String.eqb s m
  | _ => false
  end.

Definition remove_var (m : string) (fixture_vars : list value) : list value :=
  List.filter (fun x => negb (is_var m x)) fixture_vars.

(** A Python list of strings. *)
Definition list_of_str (l : list string) : value := PList (PStr <$> l).

(** The item of [fixture_sequence] that enters the resolution order: a
    string that is among the registered [fixture_vars]. *)
Definition in_order (fixture_vars : list string) (x : value) : option string :=
  match x with
  | PStr s => if decide (s ∈ fixture_vars) then Some s else None
  | _ => None
  end.

(** *** Generators and dictionaries of the examples *)

(** A generator function with the documented signature
    [(test_name, **kwargs)], called as [generator(test_name, **kwargs)]:
    a keyword [test_name] clashes with its first parameter and the call
    raises; otherwise the body returns [res]. *)
Definition gen_returning (res : value) : generator := fun _ kwargs =>
  if decide (is_Some (kwargs !! "test_name")) then Raise else Return res.

(** [lambda test_name, **kwargs: [1, 2, 3]]. *)
Definition gen_1_2_3 : generator := gen_returning (PList [PInt 1; PInt 2; PInt 3]).

(** [lambda test_name, **kwargs: [1, 2]]. *)
Definition gen_1_2 : generator := gen_returning (PList [PInt 1; PInt 2]).

(** [lambda test_name, number, **kwargs: [number * k for k in range(1, number + 1)]];
    called with a keyword [test_name], or without an integer [number], it
    raises. *)
Definition gen_multiples : generator := fun _ kwargs =>
  if decide (is_Some (kwargs !! "test_name")) then Raise
  else
    match kwargs !! "number" with
    | Some (PInt n) => Return (PList (map (fun k => PInt (n * Z.of_nat k)) (seq 1 (Z.to_nat n))))
    | _ => Raise
    end.

(** A generator that always raises. *)
Definition gen_raises : generator := fun _ _ => Raise.

(** [lambda test_name, **kwargs: ([1], [7])]: values and names, the names
    being integers. *)
Definition gen_int_names : generator :=
  gen_returning (PTuple [PList [PInt 1]; PList [PInt 7]]).

(** [lambda test_name, **kwargs: zip([1, 2], ["one", "two"])]: a one-pass
    iterator of (value, name) pairs. *)
Definition gen_zip_pairs : generator := fun _ kwargs =>
  if decide (is_Some (kwargs !! "test_name")) then Raise
  else ReturnIterator [PTuple [PInt 1; PStr "one"]; PTuple [PInt 2; PStr "two"]].

Definition dict_number : gmap string generator := {[ "number" := gen_1_2_3 ]}.

Definition dict_a_b : gmap string generator :=
  <[ "a" := gen_1_2 ]> {[ "b" := gen_1_2 ]}.

Definition dict_a_raises : gmap string generator := {[ "a" := gen_raises ]}.

Definition dict_a_int_names : gmap string generator := {[ "a" := gen_int_names ]}.

Definition dict_fixture_var_b : gmap string generator :=
  <[ "fixture_var" := gen_1_2 ]> {[ "b" := gen_1_2 ]}.

(** *** Vocabulary of the further properties *)

(** The item of [fixture_vars] that the filter over [generator_dict.keys()]
    keeps: a string that is a key. *)
Definition registered (generator_dict : gmap string generator) (x : value) : option string :=
  match x with
  | PStr s => if decide (is_Some (generator_dict !! s)) then Some s else None
  | _ => None
  end.

(** The tuple [(x, name)] of a candidate and its display name. *)
Definition pair_obj (c : value * value) : value := PTuple [c.1; c.2].

(** The length of the message of a [FixtureGenerationError] object, 0 for
    any other object. *)
Definition message_length (v : value) : nat :=
  match v with
  | PErr _ m => String.length m
  | _ => 0
  end.

(** The [fixture_name] attribute of a [FixtureGenerationError] object. *)
Definition fixture_name_of (v : value) : option string :=
  match v with
  | PErr n _ => Some n
  | _ => None
  end.

(** [lambda test_name, **kwargs: ((1, "one"), (2, "two"), (3, "three"))]. *)
Definition gen_three_pairs : generator :=
  gen_returning (PTuple [PTuple [PInt 1; PStr "one"]; PTuple [PInt 2; PStr "two"];
                         PTuple [PInt 3; PStr "three"]]).

Definition dict_a_zip_pairs : gmap string generator := {[ "a" := gen_zip_pairs ]}.

Definition dict_fixture_var_raises_b : gmap string generator :=
  <[ "fixture_var" := gen_raises ]> {[ "b" := gen_1_2 ]}.

Definition dict_a_raises_b : gmap string generator :=
  <[ "a" := gen_raises ]> {[ "b" := gen_1_2 ]}.

(** [lambda test_name, a, **kwargs: (1, 2) if a == 2 else [a * 10]]: for
    [a = 2] a pair of two integers, which cannot be iterated. *)
Definition gen_pair_of_int_at_2 : generator := fun _ kwargs =>
  if decide (is_Some (kwargs !! "test_name")) then Raise
  else
    match kwargs !! "a" with
    | Some (PInt 2) => Return (PTuple [PInt 1; PInt 2])
    | Some (PInt n) => Return (PList [PInt (n * 10)])
    | _ => Raise
    end.

Definition dict_a_b_pair_at_2 : gmap string generator :=
  <[ "a" := gen_1_2_3 ]> {[ "b" := gen_pair_of_int_at_2 ]}.

Definition dict_a_three_pairs : gmap string generator := {[ "a" := gen_three_pairs ]}.

Definition dict_number_multiples : gmap string generator :=
  <[ "number" := gen_1_2 ]> {[ "multiples" := gen_multiples ]}.

(** ** Iterators *)

Lemma iter_for_nil {A B} (e : option exn) (body : A -> iterator B) :
  iter_for (Iterator [] e) body = Iterator [] e.
Proof. reflexivity. Qed.

Lemma iter_for_cons {A B} (x : A) (l : list A) (e : option exn) (body : A -> iterator B) :
  iter_for (Iterator (x :: l) e) body = iter_chain (body x) (iter_for (Iterator l e) body).
Proof. reflexivity. Qed.

Lemma elem_of_iter_chain {A} (a b : iterator A) (y : A) :
  y ∈ yielded (iter_chain a b) -> y ∈ yielded a \/ y ∈ yielded b.
Proof.
  unfold iter_chain. destruct (raised a); simpl; [by left|].
  by rewrite elem_of_app.
Qed.

Lemma elem_of_iter_for {A B} (source : iterator A) (body : A -> iterator B) (y : B) :
  y ∈ yielded (iter_for source body) ->
  exists x, x ∈ yielded source /\ y ∈ yielded (body x).
Proof.
  destruct source as [items e]. induction items as [|x items IH].
  - rewrite iter_for_nil. simpl. by intros ?%elem_of_nil.
  - rewrite iter_for_cons. intros [Hy|Hy]%elem_of_iter_chain.
    + exists x. split; [simpl; left | done].
    + destruct (IH Hy) as (x' & Hx' & Hy'). exists x'. split; [simpl; by right | done].
Qed.

(** A loop whose body never raises and yields [n] items per round. *)
Lemma iter_for_total {A B} (source : iterator A) (body : A -> iterator B) (g : A -> list B) :
  (forall x, x ∈ yielded source -> body x = iter_of_list (g x)) ->
  iter_for source body = Iterator (concat (map g (yielded source))) (raised source).
Proof.
  destruct source as [items e]. simpl. induction items as [|x items IH]; intros Hbody.
  - reflexivity.
  - rewrite iter_for_cons, IH.
    + rewrite (Hbody x) by left. reflexivity.
    + intros x' Hx'. apply Hbody. by right.
Qed.

Lemma starmap_total {A B} (f : A -> result B) (g : A -> B) (source : iterator A) :
  (forall x, x ∈ yielded source -> f x = Returns (g x)) ->
  starmap f source = Iterator (map g (yielded source)) (raised source).
Proof.
  intros Hf. unfold starmap.
  rewrite (iter_for_total source _ (fun x => [g x])).
  - f_equal. clear Hf. induction (yielded source) as [|x l IH]; simpl; [done | by rewrite IH].
  - intros x Hx. by rewrite (Hf x Hx).
Qed.

(** ** The expansion loop *)

Section expansion.
Variable test_name : string.
Variable generator_dict : gmap string generator.

Lemma foldl_ext_in {A B} (f g : A -> B -> A) (l : list B) (a : A) :
  (forall a x, x ∈ l -> f a x = g a x) -> foldl f a l = foldl g a l.
Proof.
  revert a. induction l as [|x l IH]; intros a Hfg; simpl; [done|].
  rewrite (Hfg a x) by left. apply IH. intros a' x' Hx'. apply Hfg. by right.
Qed.

Lemma fixture_prods_and_names_nil :
  fixture_prods_and_names test_name generator_dict [] = iter_of_list [([], [])].
Proof. reflexivity. Qed.

(** One more variable is one more round of [one_fixture_prod], whose
    [old_fixture_vars] are the variables before it. *)
Lemma fixture_prods_and_names_snoc (vars : list string) (fixture_var : string) :
  fixture_prods_and_names test_name generator_dict (vars ++ [fixture_var])
  = one_fixture_prod test_name generator_dict
      (fixture_prods_and_names test_name generator_dict vars) vars fixture_var.
Proof.
  unfold fixture_prods_and_names.
  rewrite imap_app, foldl_app. simpl.
  rewrite Nat.add_0_r, take_app_length. f_equal.
  apply foldl_ext_in. intros acc [i v] Hin.
  apply list_elem_of_lookup in Hin as [j Hj].
  rewrite list_lookup_imap in Hj.
  destruct (vars !! j) as [w|] eqn:Hw; simplify_eq/=.
  apply lookup_lt_Some in Hw.
  by rewrite take_app_le by lia.
Qed.

Lemma generated_length (vars : list string) (fixture names : list value) :
  generated test_name generator_dict vars (fixture, names) ->
  length fixture = length vars /\ length names = length vars.
Proof.
  intros H. remember (fixture, names) as p eqn:Hp. revert fixture names Hp.
  induction H as [|vars v f n x nm _ IH _]; intros fixture names Hp; simplify_eq.
  - done.
  - destruct (IH f n eq_refl) as [Hf Hn].
    rewrite !length_app, length_map. simpl. lia.
Qed.

(** Every item of the expansion was generated test_name generator_dict along the resolution order. *)
Lemma fixture_prods_and_names_generated (vars : list string) (p : fixture_and_name) :
  p ∈ yielded (fixture_prods_and_names test_name generator_dict vars) ->
  generated test_name generator_dict vars p.
Proof.
  revert p. induction vars as [|v vars IH] using rev_ind; intros p Hp.
  - rewrite fixture_prods_and_names_nil in Hp. simpl in Hp.
    apply list_elem_of_singleton in Hp as ->. constructor.
  - rewrite fixture_prods_and_names_snoc in Hp.
    apply elem_of_iter_for in Hp as ([fixture names] & Hsrc & Hp).
    apply elem_of_iter_for in Hp as ([x nm] & Hc & Hp).
    simpl in Hp. apply list_elem_of_singleton in Hp as ->.
    constructor; [by apply IH | done].
Qed.

(** *** The keyword arguments of a branch *)

Lemma dict_zip_snoc (keys : list string) (values : list value) (k : string) (v : value) :
  length keys = length values ->
  dict_zip (keys ++ [k]) (values ++ [v]) = <[k := v]> (dict_zip keys values).
Proof.
  intros Hlen. unfold dict_zip.
  rewrite zip_with_app by done. by rewrite foldl_app.
Qed.

Lemma dict_zip_lookup_None (keys : list string) (values : list value) (k : string) :
  k ∉ keys -> dict_zip keys values !! k = None.
Proof.
  unfold dict_zip. intros Hk.
  assert (forall (kvs : list (string * value)) (d : gmap string value),
             d !! k = None -> k ∉ kvs.*1 ->
             foldl (fun d kv => <[kv.1 := kv.2]> d) d kvs !! k = None) as Hfold.
  { induction kvs as [|[k' v'] kvs IH]; intros d Hd Hn; simpl; [done|].
    apply IH.
    - rewrite lookup_insert_ne; [done|]. intros ->. apply Hn. simpl. left.
    - intros Hin. apply Hn. simpl. by right. }
  apply Hfold; [apply lookup_empty|].
  intros Hin. apply Hk.
  apply list_elem_of_fmap in Hin as ([k' v'] & -> & Hin). simpl.
  by apply elem_of_zip_l in Hin.
Qed.

Lemma make_kwargs_lookup_None (old_fixture_vars : list string) (fixture : list value) (k : string) :
  k ∉ old_fixture_vars -> make_kwargs old_fixture_vars fixture !! k = None.
Proof.
  intros Hk. unfold make_kwargs. case_decide; [apply lookup_empty|].
  by apply dict_zip_lookup_None.
Qed.

Lemma make_kwargs_nil (fixture : list value) : make_kwargs [] fixture = ∅.
Proof. reflexivity. Qed.
End expansion.

(** ** Validation and resolution order *)

Lemma check_list_of_str_list (l : list value) (name : string) :
  _check_list_of_str (PList l) name = Returns (PList l).
Proof. reflexivity. Qed.

Lemma check_list_of_str_not_list (obj : value) (name : string) :
  isinstance_list obj = false ->
  _check_list_of_str obj name = Raises (TypeError (must_be_a_list_of_str name)).
Proof. intros H. unfold _check_list_of_str. by rewrite H. Qed.

(** C1, at the input [fixture_vars = [1, "a"]] with a generator registered
    for ["a"]: the list has an item that is not a string, yet the call
    returns, with parameter string ["a"], and iterating its results invokes
    the generator of ["a"].  [_check_list_of_str] raises for an object that
    is not a list only. *)
Theorem C1_list_with_non_str_item_is_accepted (drained_first : drain_order) :
  create_conditional_fixtures_and_names "test" (PList [PInt 1; PStr "a"])
    {[ "a" := gen_1_2 ]} PNone drained_first
  = Returns ("a", Iterator [PInt 1; PInt 2] None, Iterator ["1"; "2"] None).
Proof. destruct drained_first; vm_compute; reflexivity. Qed.

Lemma resolution_order_list (d : gmap string generator) (l : list value) (fixture_sequence : value) :
  resolution_order d (PList l) fixture_sequence =
  (fixture_vars ← registered_vars d l;
   match fixture_sequence with
   | PNone => Returns fixture_vars
   | _ =>
       fixture_sequence ← _check_list_of_str fixture_sequence "fixture_sequence";
       Returns (ordered_fixture_vars (default [] (py_iter fixture_sequence)) fixture_vars)
   end).
Proof. reflexivity. Qed.

Lemma ordered_fixture_vars_omap (fixture_sequence : list value) (fixture_vars : list string) :
  ordered_fixture_vars fixture_sequence fixture_vars = omap (in_order fixture_vars) fixture_sequence.
Proof.
  unfold ordered_fixture_vars.
  enough (forall acc, foldl (fun ordered fixture_var_name =>
             match fixture_var_name with
             | PStr s => if decide (s ∈ fixture_vars) then ordered ++ [s] else ordered
             | _ => ordered
             end) acc fixture_sequence = acc ++ omap (in_order fixture_vars) fixture_sequence) as H
    by apply (H []).
  induction fixture_sequence as [|x l IH]; intros acc; simpl.
  - by rewrite app_nil_r.
  - rewrite IH. destruct x; simpl; try done.
    case_decide; [by rewrite <- app_assoc | done].
Qed.

Lemma in_order_Some (fixture_vars : list string) (x : value) (v : string) :
  in_order fixture_vars x = Some v <-> x = PStr v /\ v ∈ fixture_vars.
Proof.
  unfold in_order. destruct x; try (split; [done | by intros [? _]]).
  case_decide; split; intros Hx; simplify_eq; try done.
  - by destruct Hx as [[= ->] _].
  - by destruct Hx as [[= ->] ?].
Qed.

Lemma elem_of_ordered_fixture_vars (fixture_sequence : list value) (fixture_vars : list string) (v : string) :
  v ∈ ordered_fixture_vars fixture_sequence fixture_vars
  <-> v ∈ fixture_vars /\ PStr v ∈ fixture_sequence.
Proof.
  rewrite ordered_fixture_vars_omap, list_elem_of_omap. split.
  - intros (x & Hx & [-> Hv]%in_order_Some). done.
  - intros [Hv Hs]. exists (PStr v). split; [done|]. by apply in_order_Some.
Qed.

Lemma ordered_fixture_vars_sublist (fixture_sequence : list value) (fixture_vars : list string) :
  sublist (PStr <$> ordered_fixture_vars fixture_sequence fixture_vars) fixture_sequence.
Proof.
  rewrite ordered_fixture_vars_omap.
  induction fixture_sequence as [|x l IH]; simpl; [constructor|].
  destruct (in_order fixture_vars x) as [v|] eqn:Hx.
  - apply in_order_Some in Hx as [-> _]. simpl. by constructor.
  - by constructor.
Qed.

Lemma ordered_fixture_vars_NoDup (fixture_sequence : list value) (fixture_vars : list string) :
  NoDup fixture_sequence -> NoDup (ordered_fixture_vars fixture_sequence fixture_vars).
Proof.
  rewrite ordered_fixture_vars_omap.
  induction 1 as [|x l Hx Hl IH]; simpl; [constructor|].
  destruct (in_order fixture_vars x) as [v|] eqn:Hv; [|done].
  apply in_order_Some in Hv as [-> _]. constructor; [|done].
  rewrite list_elem_of_omap. intros (y & Hy & [-> _]%in_order_Some). done.
Qed.

(** C2, as amended: with a list [fixture_sequence], the resolution order is
    the list of the items of [fixture_sequence] that are registered
    variables of [fixture_vars], in the order and with the repetitions of
    [fixture_sequence] ([omap (in_order filtered) s]): a registered variable
    is in the resolution order exactly when it occurs in [fixture_sequence],
    and nothing else is.  When neither list repeats an item and every
    registered variable occurs in [fixture_sequence], the resolution order
    is a permutation of the registered variables. *)
Theorem C2_resolution_order_follows_sequence (d : gmap string generator)
    (l s : list value) (filtered : list string) :
  registered_vars d l = Returns filtered ->
  exists order,
    resolution_order d (PList l) (PList s) = Returns order
    /\ order = omap (in_order filtered) s
    /\ (forall v, v ∈ order <-> v ∈ filtered /\ PStr v ∈ s)
    /\ sublist (PStr <$> order) s
    /\ (NoDup s -> NoDup filtered -> (forall v, v ∈ filtered -> PStr v ∈ s) -> order ≡ₚ filtered).
Proof.
  intros Hreg. exists (ordered_fixture_vars s filtered).
  split; [|split; [|split; [|split]]].
  - rewrite resolution_order_list, Hreg. reflexivity.
  - apply ordered_fixture_vars_omap.
  - intros v. apply elem_of_ordered_fixture_vars.
  - apply ordered_fixture_vars_sublist.
  - intros Hs Hf Hall. apply NoDup_Permutation; [by apply ordered_fixture_vars_NoDup | done |].
    intros v. rewrite elem_of_ordered_fixture_vars.
    split; [by intros [? _] | intros Hv; split; [done | by apply Hall]].
Qed.

(** The example of the specification: [fixture_vars = ["a", "b"]] and
    [fixture_sequence = ["b", "a", "c"]] give the order [["b", "a"]]. *)
Lemma C2_resolution_order_follows_sequence_witness :
  registered_vars dict_a_b [PStr "a"; PStr "b"] = Returns ["a"; "b"]
  /\ exists order,
      resolution_order dict_a_b (PList [PStr "a"; PStr "b"]) (PList [PStr "b"; PStr "a"; PStr "c"])
      = Returns order
      /\ order = omap (in_order ["a"; "b"]) [PStr "b"; PStr "a"; PStr "c"]
      /\ (forall v, v ∈ order <-> v ∈ ["a"; "b"] /\ PStr v ∈ [PStr "b"; PStr "a"; PStr "c"])
      /\ sublist (PStr <$> order) [PStr "b"; PStr "a"; PStr "c"]
      /\ (NoDup [PStr "b"; PStr "a"; PStr "c"] -> NoDup ["a"; "b"] ->
          (forall v, v ∈ ["a"; "b"] -> PStr v ∈ [PStr "b"; PStr "a"; PStr "c"]) ->
          order ≡ₚ ["a"; "b"]).
Proof.
  split; [vm_compute; reflexivity|].
  apply (C2_resolution_order_follows_sequence dict_a_b
           [PStr "a"; PStr "b"] [PStr "b"; PStr "a"; PStr "c"] ["a"; "b"]).
  vm_compute; reflexivity.
Defined.

Example resolution_order_b_a_c :
  resolution_order dict_a_b (PList [PStr "a"; PStr "b"]) (PList [PStr "b"; PStr "a"; PStr "c"])
  = Returns ["b"; "a"].
Proof. vm_compute. reflexivity. Qed.

(** C2 as stated fails: with [fixture_vars = ["a", "b"]], both registered,
    and [fixture_sequence = ["b"]], the variable ["a"] is registered but is
    not in the resolution order. *)
Lemma C2_registered_var_absent_from_sequence_is_dropped :
  exists filtered order,
    registered_vars dict_a_b [PStr "a"; PStr "b"] = Returns filtered
    /\ resolution_order dict_a_b (PList [PStr "a"; PStr "b"]) (PList [PStr "b"]) = Returns order
    /\ "a" ∈ filtered /\ "a" ∉ order.
Proof.
  exists ["a"; "b"], ["b"]. repeat split; try (vm_compute; reflexivity).
  - left.
  - intros Ha%list_elem_of_singleton. discriminate Ha.
Qed.

Lemma registered_vars_remove_var (d : gmap string generator) (m : string) (l : list value) :
  d !! m = None -> registered_vars d (remove_var m l) = registered_vars d l.
Proof.
  intros Hm. induction l as [|x l IH]; [done|].
  unfold remove_var in *. simpl.
  destruct (is_var m x) eqn:Hx; simpl.
  - destruct x; try done. simpl in Hx. apply String.eqb_eq in Hx as ->.
    rewrite IH. case_decide as Hd; [|done].
    rewrite Hm in Hd. by destruct Hd.
  - destruct (hashable x); simpl; [|done].
    destruct x; try done. by rewrite IH.
Qed.

(** C7: a variable [m] that is not a key of [generator_dict] is dropped
    silently: the call with [fixture_vars] has the same outcome, with the
    same three results, as the call with the items [m] removed from
    [fixture_vars]. *)
Theorem C7_unregistered_var_is_dropped (test_name : string) (d : gmap string generator)
    (l : list value) (fixture_sequence : value) (m : string) (drained_first : drain_order) :
  d !! m = None ->
  create_conditional_fixtures_and_names test_name (PList l) d fixture_sequence drained_first
  = create_conditional_fixtures_and_names test_name (PList (remove_var m l)) d fixture_sequence
      drained_first.
Proof.
  intros Hm. unfold create_conditional_fixtures_and_names.
  by rewrite !resolution_order_list, registered_vars_remove_var.
Qed.

Lemma C7_unregistered_var_is_dropped_witness :
  ({[ "a" := gen_1_2_3 ]} : gmap string generator) !! "missing" = None
  /\ create_conditional_fixtures_and_names "test" (PList [PStr "a"; PStr "missing"])
       {[ "a" := gen_1_2_3 ]} PNone values_first
     = create_conditional_fixtures_and_names "test" (PList [PStr "a"])
       {[ "a" := gen_1_2_3 ]} PNone values_first.
Proof.
  split; [vm_compute; reflexivity|].
  apply (C7_unregistered_var_is_dropped "test" {[ "a" := gen_1_2_3 ]}
           [PStr "a"; PStr "missing"] PNone "missing" values_first).
  vm_compute; reflexivity.
Defined.

(** C8: with [generator_dict = {"number": a generator returning [1, 2, 3]}]
    and [fixture_vars = ["number"]], the parameter string is ["number"], the
    values are the bare [1, 2, 3] and the names are ["1"], ["2"], ["3"]. *)
Theorem C8_single_variable_example (test_name : string) (drained_first : drain_order) :
  create_conditional_fixtures_and_names test_name (list_of_str ["number"])
    dict_number PNone drained_first
  = Returns ("number",
             Iterator [PInt 1; PInt 2; PInt 3] None,
             Iterator ["1"; "2"; "3"] None).
Proof. destruct drained_first; vm_compute; reflexivity. Qed.

Lemma registered_vars_list_of_str (d : gmap string generator) (l : list string) :
  exists filtered, registered_vars d (PStr <$> l) = Returns filtered.
Proof.
  induction l as [|x l [f IH]]; [by eexists|].
  rewrite fmap_cons. cbn [registered_vars hashable negb].
  rewrite IH. case_decide; by eexists.
Qed.

(** C9: when the resolution order is empty, the call returns the empty
    parameter string, the one value [()] and the one name, the empty
    string.  For a list of strings [fixture_vars] and a [fixture_sequence]
    that is absent or a list, the resolution order is computed without an
    exception. *)
Theorem C9_no_variable_resolved (test_name : string) (d : gmap string generator)
    (fixture_vars fixture_sequence : value) (drained_first : drain_order) :
  (resolution_order d fixture_vars fixture_sequence = Returns [] ->
   create_conditional_fixtures_and_names test_name fixture_vars d fixture_sequence drained_first
   = Returns (EmptyString, Iterator [PTuple []] None, Iterator [EmptyString] None))
  /\ (forall l : list string,
        fixture_vars = list_of_str l ->
        fixture_sequence = PNone \/ isinstance_list fixture_sequence = true ->
        exists order, resolution_order d fixture_vars fixture_sequence = Returns order).
Proof.
  split.
  - intros H. unfold create_conditional_fixtures_and_names. rewrite H.
    by destruct drained_first.
  - intros l -> Hseq. unfold list_of_str. rewrite resolution_order_list.
    destruct (registered_vars_list_of_str d l) as [f ->]. simpl.
    destruct Hseq as [->|Hseq]; [by eexists|].
    destruct fixture_sequence; try done. by eexists.
Qed.

Lemma C9_no_variable_resolved_witness :
  create_conditional_fixtures_and_names "test" (PList [PStr "a"; PStr "b"]) dict_a_b
    (PList [PStr "c"]) names_first
  = Returns (EmptyString, Iterator [PTuple []] None, Iterator [EmptyString] None).
Proof.
  apply (proj1 (C9_no_variable_resolved "test" dict_a_b
                  (PList [PStr "a"; PStr "b"]) (PList [PStr "c"]) names_first)).
  vm_compute; reflexivity.
Defined.

(** ** Candidates of one variable *)

Section candidates.
Variable test_name : string.
Variable generator_dict : gmap string generator.

Lemma candidates_reached (fixture_var : string) (kwargs : gmap string value) :
  kwargs !! "fixture_var" = None ->
  candidates test_name generator_dict fixture_var kwargs
  = iter_of_result (zip_fixtures (get_fixtures test_name generator_dict fixture_var kwargs)).
Proof.
  intros Hk. unfold candidates, call_get_fixtures.
  case_decide as Hd; [|done]. rewrite Hk in Hd. by destruct Hd.
Qed.

Lemma candidates_clash (fixture_var : string) (kwargs : gmap string value) :
  is_Some (kwargs !! "fixture_var") ->
  candidates test_name generator_dict fixture_var kwargs
  = iter_raise (TypeError (multiple_values_for_argument "fixture_var")).
Proof. intros Hk. unfold candidates, call_get_fixtures. by case_decide. Qed.

Lemma zip_items_lists (xs ys : list value) :
  zip_items xs ys None None = iter_of_list (zip xs ys).
Proof.
  revert ys. induction xs as [|x xs IH]; intros [|y ys]; simpl; try done.
  by rewrite IH.
Qed.

Lemma zip_items_map (f : value -> value) (l : list value) :
  zip_items l (map f l) None None = iter_of_list (map (fun x => (x, f x)) l).
Proof. induction l as [|x l IH]; simpl; [done | by rewrite IH]. Qed.

Lemma starmap_cons_Returns {A B} (f : A -> result B) (x : A) (y : B) (l : list A) :
  f x = Returns y ->
  starmap f (iter_of_list (x :: l))
  = Iterator (y :: yielded (starmap f (iter_of_list l))) (raised (starmap f (iter_of_list l))).
Proof.
  intros Hx. unfold starmap, iter_of_list. rewrite iter_for_cons, Hx. reflexivity.
Qed.

Lemma starmap_cons_Raises {A B} (f : A -> result B) (x : A) (e : exn) (l : list A) :
  f x = Raises e -> starmap f (iter_of_list (x :: l)) = iter_raise e.
Proof.
  intros Hx. unfold starmap, iter_of_list. rewrite iter_for_cons, Hx. reflexivity.
Qed.

(** [zip] of the two [starmap] iterators over the same elements yields the
    unpacked elements, up to the first one that cannot be unpacked. *)
Lemma zip_items_starmap (elems : list value) :
  let firsts := starmap (fun e => fst <$> unpack2 e) (iter_of_list elems) in
  let seconds := starmap (fun e => snd <$> unpack2 e) (iter_of_list elems) in
  zip_items (yielded firsts) (yielded seconds) (raised firsts) (raised seconds)
  = starmap unpack2 (iter_of_list elems).
Proof.
  induction elems as [|e elems IH]; [reflexivity|]. simpl in *.
  destruct (unpack2 e) as [[x y]|err] eqn:He.
  - rewrite (starmap_cons_Returns _ e x), (starmap_cons_Returns _ e y),
      (starmap_cons_Returns _ e (x, y)) by (by rewrite ?He). simpl. by rewrite IH.
  - rewrite (starmap_cons_Raises _ e err), (starmap_cons_Raises _ e err),
      (starmap_cons_Raises _ e err) by (by rewrite ?He). reflexivity.
Qed.

Lemma get_fixtures_raise (fixture_var : string) (gen : generator) (kwargs : gmap string value) :
  generator_dict !! fixture_var = Some gen ->
  gen test_name kwargs = Raise ->
  get_fixtures test_name generator_dict fixture_var kwargs = generation_error fixture_var.
Proof. intros Hg Hr. unfold get_fixtures. by rewrite Hg, Hr. Qed.

(** The inner loop of [one_fixture_prod] on one partial tuple. *)
Lemma inner_loop (fixture fixture_name : list value) (cands : iterator (value * value)) :
  iter_for cands (fun '(new_fixture, new_fixture_name) =>
    iter_of_list [(map deepcopy fixture ++ [deepcopy new_fixture],
                   fixture_name ++ [new_fixture_name])])
  = Iterator (map (extend fixture fixture_name) (yielded cands)) (raised cands).
Proof.
  rewrite (iter_for_total cands _ (fun c => [extend fixture fixture_name c])).
  - f_equal. induction (yielded cands) as [|c l IH]; simpl; [done | by rewrite IH].
  - by intros [x nm] _.
Qed.

Lemma one_fixture_prod_cons (fixture fixture_name : list value) (rest : list fixture_and_name)
    (e : option exn) (old_fixture_vars : list string) (fixture_var : string) :
  one_fixture_prod test_name generator_dict (Iterator ((fixture, fixture_name) :: rest) e)
    old_fixture_vars fixture_var
  = iter_chain
      (let cands := candidates test_name generator_dict fixture_var (make_kwargs old_fixture_vars fixture) in
       Iterator (map (extend fixture fixture_name) (yielded cands)) (raised cands))
      (one_fixture_prod test_name generator_dict (Iterator rest e) old_fixture_vars fixture_var).
Proof.
  unfold one_fixture_prod. rewrite iter_for_cons. by rewrite inner_loop.
Qed.

Lemma make_kwargs_snoc_lookup (old_fixture_vars : list string) (fixture : list value)
    (fixture_var : string) (x : value) :
  length fixture = length old_fixture_vars ->
  make_kwargs (old_fixture_vars ++ [fixture_var]) (fixture ++ [x]) !! fixture_var = Some x.
Proof.
  intros Hlen. unfold make_kwargs. case_decide as Hz.
  - rewrite length_app in Hz. simpl in Hz. lia.
  - rewrite dict_zip_snoc by done. apply lookup_insert_eq.
Qed.
End candidates.

(** A generator result that is a tuple of length 2 is the pair of the
    candidate values and the display names: the candidates are the items of
    its first component paired with the items of its second, not its two
    components.  A list result is the list of candidates, named by [str]. *)
Lemma two_tuple_is_values_and_names (test_name : string) (d : gmap string generator)
    (fixture_var : string) (gen : generator) (kwargs : gmap string value) (res : value) :
  d !! fixture_var = Some gen ->
  gen test_name kwargs = Return res ->
  kwargs !! "fixture_var" = None ->
  (forall res0 res1, res = PTuple [res0; res1] ->
     get_fixtures test_name d fixture_var kwargs = Two (Obj res0) (Obj res1)
     /\ candidates test_name d fixture_var kwargs = iter_of_result (py_zip (Obj res0) (Obj res1))
     /\ (forall xs ns, py_iter res0 = Some xs -> py_iter res1 = Some ns ->
           candidates test_name d fixture_var kwargs = iter_of_list (zip xs ns)))
  /\ (forall l, res = PList l ->
        candidates test_name d fixture_var kwargs
        = iter_of_list (map (fun x => (x, PStr (py_str x))) l)).
Proof.
  intros Hg Hres Hk. rewrite (candidates_reached _ _ _ _ Hk).
  unfold get_fixtures. rewrite Hg, Hres.
  split.
  - intros res0 res1 ->. split; [done|]. split; [done|].
    intros xs ns Hxs Hns. unfold zip_fixtures, py_zip. simpl. rewrite Hxs, Hns. simpl.
    by rewrite zip_items_lists.
  - intros l ->. unfold zip_fixtures, py_zip. simpl. by rewrite zip_items_map.
Qed.

Example two_tuple_of_lists :
  candidates "test" dict_a_int_names "a" ∅ = iter_of_list [(PInt 1, PInt 7)].
Proof. vm_compute. reflexivity. Qed.

(** C10, at the input of a generator that returns
    [zip([1, 2], ["one", "two"])], an iterable of (value, name) pairs that
    is neither a list nor a tuple: the candidates should be [1] named
    ["one"] and [2] named ["two"].  The last branch of [get_fixtures] builds
    two [starmap]s over the one iterator, and [zip] draws the value from the
    first pair and the name from the second: the only candidate is [1]
    named ["two"].  The same branch, on a tuple of three pairs, which can
    be iterated twice, gives the three candidates with their names. *)
Theorem C10_one_pass_iterable_of_pairs_is_interleaved (drained_first : drain_order) :
  get_fixtures "test" dict_a_zip_pairs "a" ∅
  = SharedStarmaps [PTuple [PInt 1; PStr "one"]; PTuple [PInt 2; PStr "two"]]
  /\ candidates "test" dict_a_zip_pairs "a" ∅ = iter_of_list [(PInt 1, PStr "two")]
  /\ create_conditional_fixtures_and_names "test" (list_of_str ["a"]) dict_a_zip_pairs PNone
       drained_first
     = Returns ("a", Iterator [PInt 1] None, Iterator ["two"] None)
  /\ candidates "test" dict_a_three_pairs "a" ∅
     = iter_of_list [(PInt 1, PStr "one"); (PInt 2, PStr "two"); (PInt 3, PStr "three")].
Proof. destruct drained_first; repeat split; vm_compute; reflexivity. Qed.

(** The round of a variable whose generator raises on the branch of a
    partial tuple: [get_fixtures] returns one candidate, the
    [FixtureGenerationError] whose [fixture_name] is [fixture_var], with the
    display name ["Error:" + fixture_var]; [one_fixture_prod] yields the
    partial tuple extended by a copy of that error and goes on with the
    sibling branches; the round of the next variable is run on the extended
    tuple, with the error as the keyword argument [fixture_var]. *)
Lemma generator_exception_round (test_name : string)
    (d : gmap string generator) (old_fixture_vars : list string) (fixture_var : string)
    (gen : generator) (fixture fixture_name : list value) (rest : list fixture_and_name)
    (e : option exn) :
  d !! fixture_var = Some gen ->
  length fixture = length old_fixture_vars ->
  make_kwargs old_fixture_vars fixture !! "fixture_var" = None ->
  gen test_name (make_kwargs old_fixture_vars fixture) = Raise ->
  let error := FixtureGenerationError fixture_var in
  let name := PStr ("Error:" +:+ fixture_var) in
  let branch := (map deepcopy fixture ++ [deepcopy error], fixture_name ++ [name]) in
  let siblings := one_fixture_prod test_name d (Iterator rest e) old_fixture_vars fixture_var in
  (exists m, error = PErr fixture_var m)
  /\ (exists m, deepcopy error = PErr fixture_var m)
  /\ get_fixtures test_name d fixture_var (make_kwargs old_fixture_vars fixture)
     = Two (Obj (PList [error])) (Obj (PList [name]))
  /\ candidates test_name d fixture_var (make_kwargs old_fixture_vars fixture)
     = iter_of_list [(error, name)]
  /\ one_fixture_prod test_name d (Iterator ((fixture, fixture_name) :: rest) e)
       old_fixture_vars fixture_var
     = Iterator (branch :: yielded siblings) (raised siblings)
  /\ (forall next_var,
        one_fixture_prod test_name d
          (one_fixture_prod test_name d (Iterator ((fixture, fixture_name) :: rest) e)
             old_fixture_vars fixture_var)
          (old_fixture_vars ++ [fixture_var]) next_var
        = iter_chain
            (let cands := candidates test_name d next_var
                            (make_kwargs (old_fixture_vars ++ [fixture_var]) branch.1) in
             Iterator (map (extend branch.1 branch.2) (yielded cands)) (raised cands))
            (one_fixture_prod test_name d siblings (old_fixture_vars ++ [fixture_var]) next_var))
  /\ make_kwargs (old_fixture_vars ++ [fixture_var]) branch.1 !! fixture_var
     = Some (deepcopy error).
Proof.
  intros Hg Hlen Hk Hraise error name branch siblings.
  assert (candidates test_name d fixture_var (make_kwargs old_fixture_vars fixture)
          = iter_of_list [(error, name)]) as Hcands.
  { rewrite (candidates_reached _ _ _ _ Hk), (get_fixtures_raise _ _ _ _ _ Hg Hraise).
    reflexivity. }
  assert (one_fixture_prod test_name d (Iterator ((fixture, fixture_name) :: rest) e)
            old_fixture_vars fixture_var
          = Iterator (branch :: yielded siblings) (raised siblings)) as Hround.
  { rewrite one_fixture_prod_cons, Hcands. reflexivity. }
  split; [by eexists|]. split; [by eexists|].
  split; [by rewrite (get_fixtures_raise _ _ _ _ _ Hg Hraise)|].
  split; [done|]. split; [done|].
  split.
  - intros next_var. rewrite Hround. clearbody siblings. destruct siblings as [ys e'].
    unfold branch. by rewrite one_fixture_prod_cons.
  - apply make_kwargs_snoc_lookup. by rewrite length_map.
Qed.

(** C4, at the input [fixture_vars = ["fixture_var", "b"]] with a
    generator of ["fixture_var"] that raises and a generator of ["b"] that
    returns [[1, 2]]: the generator's exception is caught and gives the one
    error candidate named ["Error:fixture_var"], but generation does not
    continue for ["b"] on that branch: the round of ["b"] calls
    [get_fixtures("b", fixture_var=error)], whose keyword clashes with the
    parameter [fixture_var], and the iterator drained first raises a
    [TypeError] before any tuple.  Under the name ["a"] the same generators
    give the two tuples of the error with [1] and with [2]. *)
Theorem C4_no_tuple_after_an_error_of_a_variable_named_fixture_var :
  candidates "test" dict_fixture_var_raises_b "fixture_var" ∅
  = iter_of_list [(FixtureGenerationError "fixture_var", PStr "Error:fixture_var")]
  /\ create_conditional_fixtures_and_names "test" (list_of_str ["fixture_var"; "b"])
       dict_fixture_var_raises_b PNone values_first
     = Returns ("fixture_var,b",
                Iterator [] (Some (TypeError (multiple_values_for_argument "fixture_var"))),
                Iterator [] None)
  /\ create_conditional_fixtures_and_names "test" (list_of_str ["fixture_var"; "b"])
       dict_fixture_var_raises_b PNone names_first
     = Returns ("fixture_var,b",
                Iterator [] None,
                Iterator [] (Some (TypeError (multiple_values_for_argument "fixture_var"))))
  /\ forall drained_first,
       create_conditional_fixtures_and_names "test" (list_of_str ["a"; "b"])
         dict_a_raises_b PNone drained_first
       = Returns ("a,b",
                  Iterator [PTuple [deepcopy (deepcopy (FixtureGenerationError "a")); PInt 1];
                            PTuple [deepcopy (deepcopy (FixtureGenerationError "a")); PInt 2]]
                           None,
                  Iterator ["Error:a-1"; "Error:a-2"] None).
Proof.
  split; [vm_compute; reflexivity|]. split; [vm_compute; reflexivity|].
  split; [vm_compute; reflexivity|].
  intros drained_first. destruct drained_first; vm_compute; reflexivity.
Qed.

Example generator_exception_candidates :
  candidates "test" dict_a_raises "a" ∅
  = iter_of_list [(FixtureGenerationError "a", PStr "Error:a")].
Proof. vm_compute. reflexivity. Qed.

(** ** The three results *)

Lemma reaches_end_make_fixture_prod (source : iterator fixture_and_name) :
  reaches_end make_fixture_prod source = true.
Proof. unfold reaches_end. by induction (yielded source). Qed.

Lemma starmap_yielded {A B} (f : A -> result B) (l : list A) (e e' : option exn) :
  yielded (starmap f (Iterator l e)) = yielded (starmap f (Iterator l e')).
Proof.
  induction l as [|x l IH]; [done|].
  unfold starmap in *. rewrite !iter_for_cons.
  destruct (f x) as [y|err]; simpl; [by rewrite IH | done].
Qed.

(** The results of a call whose resolution order is [order], for the two
    orders of draining. *)
Lemma create_returns (test_name : string) (d : gmap string generator)
    (fixture_vars fixture_sequence : value) (order : list string) (drained_first : drain_order) :
  resolution_order d fixture_vars fixture_sequence = Returns order ->
  let source := fixture_prods_and_names test_name d order in
  create_conditional_fixtures_and_names test_name fixture_vars d fixture_sequence drained_first
  = Returns (String.concat "," order,
             Iterator (map (fun p => _remove_single p.1) (yielded source))
                      (match drained_first with
                       | values_first => raised source
                       | names_first =>
                           if reaches_end make_fixture_name source then None else raised source
                       end),
             starmap make_fixture_name
               (match drained_first with
                | values_first => Iterator (yielded source) None
                | names_first => source
                end)).
Proof.
  intros Horder source. unfold create_conditional_fixtures_and_names. rewrite Horder. simpl.
  fold source. destruct drained_first; simpl.
  - rewrite reaches_end_make_fixture_prod.
    by rewrite (starmap_total make_fixture_prod (fun p => _remove_single p.1)).
  - by rewrite (starmap_total make_fixture_prod (fun p => _remove_single p.1)).
Qed.

(** The items that the two iterators yield do not depend on the order of
    draining. *)
Lemma create_yielded (test_name : string) (d : gmap string generator)
    (fixture_vars fixture_sequence : value) (order : list string) (drained_first : drain_order)
    (param_str : string) (values : iterator value) (names : iterator string) :
  resolution_order d fixture_vars fixture_sequence = Returns order ->
  create_conditional_fixtures_and_names test_name fixture_vars d fixture_sequence drained_first
  = Returns (param_str, values, names) ->
  yielded values
  = map (fun p => _remove_single p.1) (yielded (fixture_prods_and_names test_name d order))
  /\ yielded names
     = yielded (starmap make_fixture_name (fixture_prods_and_names test_name d order)).
Proof.
  intros Horder Hcall. rewrite (create_returns _ _ _ _ _ _ Horder) in Hcall.
  injection Hcall as _ <- <-. split; [done|].
  destruct drained_first; [|done].
  destruct (fixture_prods_and_names test_name d order) as [items e]. apply starmap_yielded.
Qed.

Lemma starmap_lookup {A B} (f : A -> result B) (source : iterator A) (i : nat) (y : B) :
  yielded (starmap f source) !! i = Some y ->
  exists x, yielded source !! i = Some x /\ f x = Returns y.
Proof.
  destruct source as [items e]. revert i.
  induction items as [|x items IH]; intros i Hi; [done|].
  unfold starmap in *. rewrite iter_for_cons in Hi.
  destruct (f x) as [y0|err] eqn:Hx; simpl in Hi; [|done].
  destruct i as [|i]; simpl in *.
  - exists x. by simplify_eq.
  - by apply IH.
Qed.

Lemma starmap_length {A B} (f : A -> result B) (source : iterator A) :
  length (yielded (starmap f source)) <= length (yielded source).
Proof.
  destruct source as [items e].
  induction items as [|x items IH]; [done|].
  unfold starmap in *. rewrite iter_for_cons.
  destruct (f x) as [y0|err]; simpl in *; lia.
Qed.

Lemma strings_of_filter (strs : list string) :
  strings_of (List.filter not_empty_str (PStr <$> strs))
  = Some (List.filter (fun s => negb (String.eqb s EmptyString)) strs).
Proof.
  induction strs as [|s strs IH]; [done|].
  rewrite fmap_cons. simpl.
  destruct (negb (String.eqb s EmptyString)); simpl; by rewrite IH.
Qed.

Lemma make_fixture_name_strs (fixture : list value) (strs : list string) :
  make_fixture_name (fixture, PStr <$> strs)
  = Returns (String.concat "-" (List.filter (fun s => negb (String.eqb s EmptyString)) strs)).
Proof. unfold make_fixture_name, py_join. simpl. by rewrite strings_of_filter. Qed.

(** When the generators name their candidates by strings, every name list
    of the expansion is a list of strings. *)
Lemma generated_names_are_str (test_name : string) (d : gmap string generator)
    (vars : list string) (p : fixture_and_name) :
  generated test_name d vars p ->
  (forall v kwargs c, v ∈ vars -> c ∈ yielded (candidates test_name d v kwargs) ->
                      isinstance_str c.2 = true) ->
  exists strs, p.2 = PStr <$> strs.
Proof.
  induction 1 as [|vars v f n x nm _ IH Hc]; intros Hstr.
  - by exists [].
  - destruct IH as [strs Hn].
    { intros v' kw c Hv'. apply Hstr. apply elem_of_app. by left. }
    assert (isinstance_str nm = true) as Hnm.
    { apply (Hstr v (make_kwargs vars f) (x, nm)); [|done]. apply elem_of_app. right. left. }
    destruct nm as [| |s| | |]; try done.
    exists (strs ++ [s]). simpl in *. by rewrite Hn, fmap_app.
Qed.

Lemma fixture_prods_and_names_single (test_name : string) (d : gmap string generator)
    (fixture_var : string) :
  yielded (fixture_prods_and_names test_name d [fixture_var])
  = map (extend [] []) (yielded (candidates test_name d fixture_var ∅))
  /\ raised (fixture_prods_and_names test_name d [fixture_var])
     = raised (candidates test_name d fixture_var ∅).
Proof.
  change [fixture_var] with ([] ++ [fixture_var]).
  rewrite fixture_prods_and_names_snoc, fixture_prods_and_names_nil.
  unfold iter_of_list. rewrite one_fixture_prod_cons.
  unfold one_fixture_prod. rewrite iter_for_nil, make_kwargs_nil.
  unfold iter_chain. simpl.
  destruct (raised (candidates test_name d fixture_var ∅)); simpl; [done|].
  by rewrite app_nil_r.
Qed.

Lemma remove_single_tuple (x : list value) :
  length x <> 1 -> _remove_single x = PTuple x.
Proof. by destruct x as [|? [|? ?]]. Qed.

(** C5: with one resolved variable the values are copies of the candidates
    themselves, not one-item tuples; with [N >= 2] resolved variables every
    value is a tuple of length [N] whose components were built along the
    resolution order. *)
Theorem C5_one_variable_bare_else_tuple (test_name : string) (d : gmap string generator)
    (fixture_vars fixture_sequence : value) (order : list string) (param_str : string)
    (values : iterator value) (names : iterator string) (drained_first : drain_order) :
  resolution_order d fixture_vars fixture_sequence = Returns order ->
  create_conditional_fixtures_and_names test_name fixture_vars d fixture_sequence drained_first
  = Returns (param_str, values, names) ->
  (forall fixture_var, order = [fixture_var] ->
     yielded values
     = map (fun c => deepcopy c.1) (yielded (candidates test_name d fixture_var ∅)))
  /\ (2 <= length order ->
      forall x, x ∈ yielded values ->
        exists fixture fixture_name,
          generated test_name d order (fixture, fixture_name)
          /\ x = PTuple fixture /\ length fixture = length order).
Proof.
  intros Horder Hcall.
  destruct (create_yielded _ _ _ _ _ _ _ _ _ Horder Hcall) as [-> _]. split.
  - intros v ->. destruct (fixture_prods_and_names_single test_name d v) as [-> _].
    rewrite map_map. reflexivity.
  - intros Hlen x Hx. apply list_elem_of_fmap in Hx as ([fixture nms] & -> & Hp).
    apply fixture_prods_and_names_generated in Hp.
    destruct (generated_length _ _ _ _ _ Hp) as [Hf _].
    exists fixture, nms. split; [done|]. split; [|done].
    simpl. apply remove_single_tuple. lia.
Qed.

Lemma C5_one_variable_bare_else_tuple_witness :
  resolution_order dict_number (list_of_str ["number"]) PNone = Returns ["number"]
  /\ yielded (Iterator [PInt 1; PInt 2; PInt 3] None)
     = map (fun c => deepcopy c.1) (yielded (candidates "test" dict_number "number" ∅)).
Proof.
  split; [vm_compute; reflexivity|].
  destruct (C5_one_variable_bare_else_tuple "test" dict_number
              (list_of_str ["number"]) PNone ["number"] "number"
              (Iterator [PInt 1; PInt 2; PInt 3] None)
              (Iterator ["1"; "2"; "3"] None) values_first) as [Hone _];
    [vm_compute; reflexivity ..|].
  exact (Hone "number" eq_refl).
Defined.

(** C6: the names are index-aligned with the values, in whichever order
    the two iterators are drained: the i-th name is the dash-joined list,
    empty names skipped, of the display names of the candidates whose copies
    make up the i-th value, and there are never more names than values.
    When the display names that the generators of the resolved variables
    supply are strings, as [get_fixtures] documents them, the two sequences
    have the same length, and every value has its name. *)
Theorem C6_values_and_names_are_aligned (test_name : string) (d : gmap string generator)
    (fixture_vars fixture_sequence : value) (order : list string) (param_str : string)
    (values : iterator value) (names : iterator string) (drained_first : drain_order) :
  resolution_order d fixture_vars fixture_sequence = Returns order ->
  create_conditional_fixtures_and_names test_name fixture_vars d fixture_sequence drained_first
  = Returns (param_str, values, names) ->
  (forall i name, yielded names !! i = Some name ->
     exists fixture fixture_name,
       generated test_name d order (fixture, fixture_name)
       /\ yielded values !! i = Some (_remove_single fixture)
       /\ py_join "-" (List.filter not_empty_str fixture_name) = Returns name)
  /\ length (yielded names) <= length (yielded values)
  /\ ((forall v kwargs c, v ∈ order -> c ∈ yielded (candidates test_name d v kwargs) ->
                          isinstance_str c.2 = true) ->
      length (yielded values) = length (yielded names)
      /\ forall i value, yielded values !! i = Some value ->
           exists fixture strs,
             generated test_name d order (fixture, PStr <$> strs)
             /\ value = _remove_single fixture
             /\ yielded names !! i
                = Some (String.concat "-"
                          (List.filter (fun s => negb (String.eqb s EmptyString)) strs))).
Proof.
  intros Horder Hcall.
  destruct (create_yielded _ _ _ _ _ _ _ _ _ Horder Hcall) as [-> ->].
  set (stream := fixture_prods_and_names test_name d order).
  split; [|split].
  - intros i name Hi.
    apply starmap_lookup in Hi as ([fixture nms] & Hitem & Hname).
    exists fixture, nms. split; [|split; [|done]].
    + apply fixture_prods_and_names_generated. by eapply list_elem_of_lookup_2.
    + change (map ?f ?l) with (f <$> l). by rewrite list_lookup_fmap, Hitem.
  - rewrite length_map. apply starmap_length.
  - intros Hstr.
    set (g := fun p : fixture_and_name =>
                match make_fixture_name p with Returns s => s | Raises _ => EmptyString end).
    assert (forall p, p ∈ yielded stream ->
              exists strs, p.2 = PStr <$> strs /\ make_fixture_name p = Returns (g p)
                           /\ g p = String.concat "-"
                                      (List.filter (fun s => negb (String.eqb s EmptyString)) strs))
      as Hnames.
    { intros [fixture nms] Hp. apply fixture_prods_and_names_generated in Hp.
      destruct (generated_names_are_str _ _ _ _ Hp Hstr) as [strs Hn]. simpl in Hn.
      exists strs. subst nms. unfold g. by rewrite make_fixture_name_strs. }
    rewrite (starmap_total make_fixture_name g stream)
      by (intros p Hp; by destruct (Hnames p Hp) as (? & _ & ? & _)).
    simpl. rewrite !length_map. split; [done|].
    intros i value Hi. change (map ?f ?l) with (f <$> l) in *.
    apply list_lookup_fmap_Some in Hi as ([fixture nms] & -> & Hitem).
    destruct (Hnames (fixture, nms)) as (strs & Hn & _ & Hg); [by eapply list_elem_of_lookup_2|].
    simpl in Hn. subst nms. exists fixture, strs. split; [|split; [done|]].
    + apply fixture_prods_and_names_generated. by eapply list_elem_of_lookup_2.
    + by rewrite list_lookup_fmap, Hitem, <- Hg.
Qed.

Lemma candidates_number_names (kwargs : gmap string value) (c : value * value) :
  c ∈ yielded (candidates "test" dict_number "number" kwargs) -> isinstance_str c.2 = true.
Proof.
  destruct (kwargs !! "fixture_var") as [x|] eqn:Hk.
  - rewrite candidates_clash by (by rewrite Hk). simpl. by intros ?%elem_of_nil.
  - rewrite (candidates_reached _ _ _ _ Hk).
    unfold get_fixtures, dict_number, gen_1_2_3, gen_returning.
    rewrite lookup_singleton_eq. case_decide; vm_compute;
      intros Hc; repeat (apply elem_of_cons in Hc as [->|Hc]; [done|]);
      by apply elem_of_nil in Hc.
Qed.

Lemma C6_values_and_names_are_aligned_witness :
  resolution_order dict_number (list_of_str ["number"]) PNone = Returns ["number"]
  /\ length (yielded (Iterator [PInt 1; PInt 2; PInt 3] None))
     = length (yielded (Iterator ["1"; "2"; "3"] None)).
Proof.
  split; [vm_compute; reflexivity|].
  destruct (C6_values_and_names_are_aligned "test" dict_number
              (list_of_str ["number"]) PNone ["number"] "number"
              (Iterator [PInt 1; PInt 2; PInt 3] None)
              (Iterator ["1"; "2"; "3"] None) values_first) as (_ & _ & Hstr);
    [vm_compute; reflexivity ..|].
  apply Hstr. intros v kwargs c Hv%list_elem_of_singleton. subst v.
  apply candidates_number_names.
Defined.

(** A generator that returns the values [[1]] with the names [[7]] breaks
    the documented type of the names: there is one value and no name, the
    names end with the [TypeError] of [join]. *)
Example non_str_name_raises_in_join (drained_first : drain_order) :
  exists values names,
    create_conditional_fixtures_and_names "test" (list_of_str ["a"]) dict_a_int_names PNone
      drained_first
    = Returns ("a", values, names)
    /\ yielded values = [PInt 1]
    /\ yielded names = []
    /\ raised names = Some (TypeError join_expected_str).
Proof. destruct drained_first; eexists _, _; (split; [vm_compute; reflexivity|]); by simpl. Qed.

(** ** The number of fixture tuples *)

(** C3, at the input [fixture_vars = ["fixture_var", "b"]] with both
    generators returning [[1, 2]]: the product of the list lengths is 4, but
    the round of ["b"] calls [get_fixtures("b", fixture_var=1)], whose
    keyword clashes with the parameter [fixture_var], so that the iterator
    drained first raises a [TypeError] before its first item, and the other
    one ends with no item.  Each generator alone gives its two candidates,
    for keywords that do not bind [fixture_var]; a keyword [test_name]
    clashes with the first parameter of the generator, whose [TypeError]
    [get_fixtures] catches. *)
Theorem C3_no_tuple_after_a_variable_named_fixture_var :
  create_conditional_fixtures_and_names "test" (list_of_str ["fixture_var"; "b"])
    dict_fixture_var_b PNone values_first
  = Returns ("fixture_var,b",
             Iterator [] (Some (TypeError (multiple_values_for_argument "fixture_var"))),
             Iterator [] None)
  /\ create_conditional_fixtures_and_names "test" (list_of_str ["fixture_var"; "b"])
       dict_fixture_var_b PNone names_first
     = Returns ("fixture_var,b",
                Iterator [] None,
                Iterator [] (Some (TypeError (multiple_values_for_argument "fixture_var"))))
  /\ product [length [PInt 1; PInt 2]; length [PInt 1; PInt 2]] = 4
  /\ candidates "test" dict_fixture_var_b "fixture_var" ∅
     = iter_of_list [(PInt 1, PStr "1"); (PInt 2, PStr "2")]
  /\ (forall kwargs, kwargs !! "fixture_var" = None ->
        candidates "test" dict_fixture_var_b "b" kwargs
        = if decide (is_Some (kwargs !! "test_name"))
          then iter_of_list [(FixtureGenerationError "b", PStr "Error:b")]
          else iter_of_list [(PInt 1, PStr "1"); (PInt 2, PStr "2")]).
Proof.
  do 4 (split; [vm_compute; reflexivity|]).
  intros kwargs Hk. rewrite (candidates_reached _ _ _ _ Hk).
  unfold get_fixtures, dict_fixture_var_b.
  rewrite lookup_insert_ne, lookup_singleton_eq by done.
  unfold gen_1_2, gen_returning.
  case_decide as Hsome; vm_compute; reflexivity.
Qed.

Lemma candidates_list (test_name : string) (d : gmap string generator) (fixture_var : string)
    (gen : generator) (kwargs : gmap string value) (l : list value) :
  d !! fixture_var = Some gen ->
  gen test_name kwargs = Return (PList l) ->
  kwargs !! "fixture_var" = None ->
  candidates test_name d fixture_var kwargs = iter_of_list (map (fun x => (x, PStr (py_str x))) l).
Proof.
  intros Hg Hres Hk. rewrite (candidates_reached _ _ _ _ Hk).
  unfold get_fixtures. rewrite Hg, Hres. unfold py_zip. simpl. by rewrite zip_items_map.
Qed.

Lemma product_snoc (l : list nat) (n : nat) : product (l ++ [n]) = product l * n.
Proof. unfold product. induction l as [|m l IH]; simpl; [lia | rewrite IH; lia]. Qed.

Lemma length_concat_const {A B} (g : A -> list B) (l : list A) (n : nat) :
  (forall x, x ∈ l -> length (g x) = n) -> length (concat (map g l)) = length l * n.
Proof.
  induction l as [|x l IH]; intros Hg; simpl; [done|].
  rewrite length_app, (Hg x) by left. rewrite IH; [lia|].
  intros x' Hx'. apply Hg. by right.
Qed.

(** One round over branches on each of which the variable has [n]
    candidates and nothing is raised. *)
Lemma one_fixture_prod_count (test_name : string) (d : gmap string generator)
    (acc : iterator fixture_and_name) (old_fixture_vars : list string) (fixture_var : string)
    (n : nat) :
  raised acc = None ->
  (forall p, p ∈ yielded acc ->
     exists cs, candidates test_name d fixture_var (make_kwargs old_fixture_vars p.1)
                = iter_of_list cs /\ length cs = n) ->
  raised (one_fixture_prod test_name d acc old_fixture_vars fixture_var) = None
  /\ length (yielded (one_fixture_prod test_name d acc old_fixture_vars fixture_var))
     = length (yielded acc) * n.
Proof.
  intros Hacc Hcs. unfold one_fixture_prod.
  rewrite (iter_for_total acc _
             (fun p => map (extend p.1 p.2)
                         (yielded (candidates test_name d fixture_var
                                     (make_kwargs old_fixture_vars p.1))))).
  - simpl. split; [done|]. apply length_concat_const.
    intros p Hp. destruct (Hcs p Hp) as (cs & -> & <-). by rewrite length_map.
  - intros [fixture nms] Hp. rewrite inner_loop.
    destruct (Hcs _ Hp) as (cs & Hc & _). simpl in *. by rewrite Hc.
Qed.

Lemma make_kwargs_keys (old_fixture_vars : list string) (fixture : list value) (k : string) :
  is_Some (make_kwargs old_fixture_vars fixture !! k) -> k ∈ old_fixture_vars.
Proof.
  intros [x Hx]. destruct (decide (k ∈ old_fixture_vars)) as [|Hk]; [done|].
  by rewrite make_kwargs_lookup_None in Hx.
Qed.

(** The law of C3 away from its failing input: when the generator of every
    resolved variable, called with keywords among the variables before it,
    returns a list of a fixed length, and no variable but the last is named
    ["fixture_var"], nothing is raised and the number of fixture tuples is
    the product of the lengths. *)
Lemma count_is_product (test_name : string) (d : gmap string generator)
    (order : list string) (size : string -> nat) :
  (forall i v, order !! i = Some v ->
     exists gen, d !! v = Some gen
       /\ forall kwargs, (forall k, is_Some (kwargs !! k) -> k ∈ take i order) ->
            exists l, gen test_name kwargs = Return (PList l) /\ length l = size v) ->
  (forall i v, order !! i = Some v -> S i < length order -> v <> "fixture_var") ->
  raised (fixture_prods_and_names test_name d order) = None
  /\ length (yielded (fixture_prods_and_names test_name d order)) = product (size <$> order).
Proof.
  induction order as [|v order IH] using rev_ind; intros Hgen Hclash; [done|].
  rewrite fixture_prods_and_names_snoc, fmap_app.
  change (size <$> [v]) with [size v]. rewrite product_snoc.
  destruct IH as [Hraised Hlen].
  { intros i v' Hi. pose proof (lookup_lt_Some _ _ _ Hi) as Hlt.
    destruct (Hgen i v') as (gen & Hg & Hlist); [by rewrite lookup_app_l|].
    exists gen. split; [done|]. intros kwargs Hkeys. apply Hlist.
    intros k Hk. rewrite take_app_le by lia. by apply Hkeys. }
  { intros i v' Hi Hlt. apply (Hclash i).
    - by rewrite lookup_app_l by (by eapply lookup_lt_Some).
    - rewrite length_app. simpl. lia. }
  assert ("fixture_var" ∉ order) as Hfree.
  { intros Hin. apply list_elem_of_lookup in Hin as [i Hi].
    apply (Hclash i "fixture_var"); [|rewrite length_app; simpl|done].
    - by rewrite lookup_app_l by (by eapply lookup_lt_Some).
    - apply lookup_lt_Some in Hi. lia. }
  destruct (Hgen (length order) v) as (gen & Hg & Hlist).
  { by rewrite lookup_app_r, Nat.sub_diag by lia. }
  rewrite <- Hlen. apply one_fixture_prod_count; [done|].
  intros p _. destruct (Hlist (make_kwargs order p.1)) as (l & Hres & Hsize).
  { intros k Hk. rewrite take_app_length. by eapply make_kwargs_keys. }
  exists (map (fun x => (x, PStr (py_str x))) l). split; [|by rewrite length_map].
  apply (candidates_list _ _ _ gen); [done | done |].
  by apply make_kwargs_lookup_None.
Qed.

Example count_number_multiples (drained_first : drain_order) :
  create_conditional_fixtures_and_names "test" (list_of_str ["number"; "multiples"])
    (<[ "number" := gen_1_2 ]> {[ "multiples" := gen_multiples ]}) PNone drained_first
  = Returns ("number,multiples",
             Iterator [PTuple [PInt 1; PInt 1]; PTuple [PInt 2; PInt 2]; PTuple [PInt 2; PInt 4]] None,
             Iterator ["1-1"; "2-2"; "2-4"] None).
Proof. destruct drained_first; vm_compute; reflexivity. Qed.

(** *** The size of the conditional tree *)

Section tree.
Variable test_name : string.
Variable generator_dict : gmap string generator.

Lemma fixture_prods_and_names_rounds (todo old : list string) :
  fixture_prods_and_names test_name generator_dict (old ++ todo)
  = rounds test_name generator_dict (fixture_prods_and_names test_name generator_dict old)
      old todo.
Proof.
  revert old. induction todo as [|v rest IH]; intros old; simpl.
  - by rewrite app_nil_r.
  - rewrite <- fixture_prods_and_names_snoc, <- IH. by rewrite <- app_assoc.
Qed.

Lemma iter_for_complete {A B} (source : iterator A) (body : A -> iterator B) :
  raised (iter_for source body) = None ->
  raised source = None
  /\ yielded (iter_for source body) = concat (map (fun x => yielded (body x)) (yielded source)).
Proof.
  destruct source as [items e]. simpl.
  induction items as [|x items IH]; [done|].
  rewrite iter_for_cons. unfold iter_chain.
  destruct (raised (body x)) eqn:Hx; simpl; [by rewrite Hx|].
  intros Hr. destruct (IH Hr) as [He Hy]. by rewrite Hy.
Qed.

Lemma one_fixture_prod_complete (acc : iterator fixture_and_name)
    (old_fixture_vars : list string) (fixture_var : string) :
  raised (one_fixture_prod test_name generator_dict acc old_fixture_vars fixture_var) = None ->
  raised acc = None
  /\ yielded (one_fixture_prod test_name generator_dict acc old_fixture_vars fixture_var)
     = concat (map (fun p : fixture_and_name =>
                      map (extend p.1 p.2)
                        (yielded (candidates test_name generator_dict fixture_var
                                    (make_kwargs old_fixture_vars p.1))))
                 (yielded acc)).
Proof.
  unfold one_fixture_prod. intros Hr.
  destruct (iter_for_complete _ _ Hr) as [Hacc ->]. split; [done|].
  f_equal. apply map_ext. intros [fixture nms]. by rewrite inner_loop.
Qed.

Lemma rounds_raised_None (todo old : list string) (acc : iterator fixture_and_name) :
  raised (rounds test_name generator_dict acc old todo) = None -> raised acc = None.
Proof.
  revert acc old. induction todo as [|v rest IH]; intros acc old Hr; [done|].
  simpl in Hr. apply IH in Hr. by apply one_fixture_prod_complete in Hr as [? _].
Qed.

Lemma sum_list_append (l k : list nat) : sum_list (l ++ k) = sum_list l + sum_list k.
Proof. induction l as [|n l IH]; simpl; [done | rewrite IH; lia]. Qed.

Lemma sum_list_concat_map {A B} (F : B -> nat) (G : A -> list B) (l : list A) :
  sum_list (map F (concat (map G l))) = sum_list (map (fun x => sum_list (map F (G x))) l).
Proof.
  induction l as [|x l IH]; simpl; [done|].
  by rewrite map_app, sum_list_append, IH.
Qed.

Lemma rounds_count (todo old : list string) (acc : iterator fixture_and_name) :
  raised (rounds test_name generator_dict acc old todo) = None ->
  length (yielded (rounds test_name generator_dict acc old todo))
  = sum_list (map (fun p : fixture_and_name => tree_size test_name generator_dict old p.1 todo)
                (yielded acc)).
Proof.
  revert acc old. induction todo as [|v rest IH]; intros acc old Hr; simpl.
  - induction (yielded acc) as [|p l IHl]; simpl; [done | by rewrite IHl].
  - simpl in Hr. rewrite (IH _ _ Hr).
    apply rounds_raised_None in Hr.
    destruct (one_fixture_prod_complete _ _ _ Hr) as [_ ->].
    rewrite sum_list_concat_map. f_equal. apply map_ext. intros [fixture nms].
    simpl. by rewrite map_map.
Qed.

(** Whenever the iteration ends without an exception, the number of fixture
    tuples is the size of the conditional tree. *)
Lemma count_is_tree_size (order : list string) :
  raised (fixture_prods_and_names test_name generator_dict order) = None ->
  length (yielded (fixture_prods_and_names test_name generator_dict order))
  = tree_size test_name generator_dict [] [] order.
Proof.
  intros Hr. change order with ([] ++ order) in Hr |- * at 1.
  rewrite fixture_prods_and_names_rounds in Hr |- *.
  rewrite (rounds_count _ _ _ Hr). simpl. lia.
Qed.
End tree.

(** ** Examples of the Python model *)

Example py_str_int :
  py_str (PInt 12) = "12" /\ py_str (PInt (-3)) = "-3" /\ py_str (PInt 0) = "0".
Proof. repeat split; reflexivity. Qed.

Example py_str_list :
  py_str (PList [PInt 1; PStr "a'b"; PTuple [PNone]])
  = String.concat EmptyString ["[1, "; String dquote "a'b"; String dquote ", (None,)]"].
Proof. reflexivity. Qed.

Example deepcopy_error :
  deepcopy (FixtureGenerationError "a")
  = PErr "a" "fixture fixture a failed to generate failed to generate".
Proof. reflexivity. Qed.

Example check_rejects_tuple_of_str (drained_first : drain_order) :
  create_conditional_fixtures_and_names "test" (PTuple [PStr "a"]) dict_a_b PNone drained_first
  = Raises (TypeError (must_be_a_list_of_str "fixture_vars")).
Proof. reflexivity. Qed.

Example check_rejects_sequence_that_is_no_list (drained_first : drain_order) :
  create_conditional_fixtures_and_names "test" (list_of_str ["a"]) dict_a_b (PStr "a")
    drained_first
  = Raises (TypeError (must_be_a_list_of_str "fixture_sequence")).
Proof. vm_compute. reflexivity. Qed.

Example unhashable_item_raises (drained_first : drain_order) :
  create_conditional_fixtures_and_names "test" (PList [PList []]) dict_a_b PNone drained_first
  = Raises (TypeError unhashable_type).
Proof. reflexivity. Qed.

Example pair_of_non_iterables_raises_when_iterated :
  candidates "test" {[ "a" := (fun _ _ => Return (PTuple [PInt 1; PInt 2])) : generator ]} "a" ∅
  = iter_raise (TypeError not_iterable).
Proof. vm_compute. reflexivity. Qed.

(** * Further properties of the fixture generator *)

(** ** When the call raises *)

Lemma registered_vars_omap (d : gmap string generator) (l : list value) :
  (Forall (fun x => hashable x = true) l /\ registered_vars d l = Returns (omap (registered d) l))
  \/ (Exists (fun x => hashable x = false) l
      /\ registered_vars d l = Raises (TypeError unhashable_type)).
Proof.
  induction l as [|x l IH]; [left; by split|].
  cbn [registered_vars]. destruct (hashable x) eqn:Hx; simpl.
  - destruct IH as [[Hall IH]|[Hex IH]].
    + left. split; [by constructor|].
      destruct x; simpl; try done. rewrite IH. by case_decide.
    + right. split; [by apply Exists_cons_tl|].
      destruct x; simpl; try done. rewrite IH. by case_decide.
  - right. split; [by apply Exists_cons_hd | done].
Qed.

Lemma resolution_order_cases (d : gmap string generator) (fixture_vars fixture_sequence : value) :
  match resolution_order d fixture_vars fixture_sequence with
  | Raises e =>
      (isinstance_list fixture_vars = false
       /\ e = TypeError (must_be_a_list_of_str "fixture_vars"))
      \/ (exists l, fixture_vars = PList l
            /\ Exists (fun x => hashable x = false) l
            /\ e = TypeError unhashable_type)
      \/ (exists l, fixture_vars = PList l
            /\ Forall (fun x => hashable x = true) l
            /\ fixture_sequence <> PNone
            /\ isinstance_list fixture_sequence = false
            /\ e = TypeError (must_be_a_list_of_str "fixture_sequence"))
  | Returns _ =>
      exists l, fixture_vars = PList l
        /\ Forall (fun x => hashable x = true) l
        /\ (fixture_sequence = PNone \/ isinstance_list fixture_sequence = true)
  end.
Proof.
  destruct (isinstance_list fixture_vars) eqn:Hlist.
  - destruct fixture_vars as [| | | |l|]; try done.
    rewrite resolution_order_list.
    destruct (registered_vars_omap d l) as [[Hall ->]|[Hex ->]]; simpl.
    + destruct fixture_sequence as [| | | |sq|]; simpl;
        try (right; right; by exists l);
        exists l; (split; [done|]); (split; [done|]); [by left | by right].
    + right. left. by exists l.
  - unfold resolution_order.
    rewrite (check_list_of_str_not_list _ _ Hlist). simpl. by left.
Qed.

(** X1: the call raises exactly for a [fixture_vars] that is not a list (a
    [TypeError] naming [fixture_vars]), for a list with an unhashable item
    (the [TypeError] of the membership test in [generator_dict.keys()]),
    and for a [fixture_sequence] that is neither [None] nor a list (a
    [TypeError] naming [fixture_sequence]), in this order of precedence;
    for every other argument it returns, whatever the generators do. *)
Theorem X1_call_raises_exactly_on_invalid_arguments (test_name : string)
    (fixture_vars : value) (d : gmap string generator) (fixture_sequence : value)
    (drained_first : drain_order) :
  match create_conditional_fixtures_and_names test_name fixture_vars d fixture_sequence
          drained_first with
  | Raises e =>
      (isinstance_list fixture_vars = false
       /\ e = TypeError (must_be_a_list_of_str "fixture_vars"))
      \/ (exists l, fixture_vars = PList l
            /\ Exists (fun x => hashable x = false) l
            /\ e = TypeError unhashable_type)
      \/ (exists l, fixture_vars = PList l
            /\ Forall (fun x => hashable x = true) l
            /\ fixture_sequence <> PNone
            /\ isinstance_list fixture_sequence = false
            /\ e = TypeError (must_be_a_list_of_str "fixture_sequence"))
  | Returns _ =>
      exists l, fixture_vars = PList l
        /\ Forall (fun x => hashable x = true) l
        /\ (fixture_sequence = PNone \/ isinstance_list fixture_sequence = true)
  end.
Proof.
  pose proof (resolution_order_cases d fixture_vars fixture_sequence) as Hcases.
  destruct (resolution_order d fixture_vars fixture_sequence) as [order|e] eqn:Horder.
  - by rewrite (create_returns _ _ _ _ _ _ Horder).
  - unfold create_conditional_fixtures_and_names. by rewrite Horder.
Qed.

(** ** The resolution order *)

Lemma elem_of_registered (d : gmap string generator) (l : list value) (s : string) :
  s ∈ omap (registered d) l <-> PStr s ∈ l /\ is_Some (d !! s).
Proof.
  rewrite list_elem_of_omap. split.
  - intros (x & Hx & Hr). destruct x; simpl in Hr; try done.
    case_decide; by simplify_eq.
  - intros [Hin Hs]. exists (PStr s). split; [done|]. simpl. by case_decide.
Qed.

Lemma registered_sublist (d : gmap string generator) (l : list value) :
  sublist (PStr <$> omap (registered d) l) l.
Proof.
  induction l as [|x l IH]; simpl; [constructor|].
  destruct (registered d x) as [s|] eqn:Hx; [|by constructor].
  destruct x; simpl in Hx; try done. case_decide; simplify_eq. simpl. by constructor.
Qed.

Lemma omap_in_order_id (filtered order : list string) :
  (forall v, v ∈ order -> v ∈ filtered) ->
  omap (in_order filtered) (PStr <$> order) = order.
Proof.
  induction order as [|v order IH]; intros Hsub; [done|].
  rewrite fmap_cons.
  change (omap ?f (?x :: ?k)) with (from_option (fun y => y :: omap f k) (omap f k) (f x)).
  assert (in_order filtered (PStr v) = Some v) as ->.
  { simpl. rewrite decide_True; [done|]. apply Hsub. left. }
  simpl. rewrite IH; [done|]. intros v' Hv'. apply Hsub. by right.
Qed.

(** X2: every resolved variable is an item of [fixture_vars] and a key of
    [generator_dict], with or without a [fixture_sequence]; without one, the
    resolution order is [fixture_vars] with the other items left out, item
    by item: the order and the repetitions of the registered names are
    kept. *)
Theorem X2_resolved_variables_are_registered (d : gmap string generator) (l : list value)
    (fixture_sequence : value) (order : list string) :
  resolution_order d (PList l) fixture_sequence = Returns order ->
  (forall v, v ∈ order -> PStr v ∈ l /\ is_Some (d !! v))
  /\ (fixture_sequence = PNone ->
      order = omap (registered d) l
      /\ sublist (PStr <$> order) l
      /\ forall v, PStr v ∈ l -> is_Some (d !! v) -> v ∈ order).
Proof.
  rewrite resolution_order_list.
  destruct (registered_vars_omap d l) as [[_ ->]|[_ ->]]; [|done]. simpl.
  intros Horder. split.
  - intros v Hv. apply elem_of_registered.
    destruct fixture_sequence as [| | | |s|]; simpl in Horder; simplify_eq; try done.
    by apply elem_of_ordered_fixture_vars in Hv as [? _].
  - intros ->. simpl in Horder. simplify_eq. split; [done|].
    split; [apply registered_sublist|].
    intros v Hl Hd. by apply elem_of_registered.
Qed.

Lemma X2_resolved_variables_are_registered_witness :
  resolution_order dict_a_b (PList [PStr "b"; PInt 1; PStr "c"; PStr "a"; PStr "b"]) PNone
  = Returns ["b"; "a"; "b"]
  /\ forall v, v ∈ ["b"; "a"; "b"] ->
       PStr v ∈ [PStr "b"; PInt 1; PStr "c"; PStr "a"; PStr "b"] /\ is_Some (dict_a_b !! v).
Proof.
  split; [vm_compute; reflexivity|].
  apply (X2_resolved_variables_are_registered dict_a_b
           [PStr "b"; PInt 1; PStr "c"; PStr "a"; PStr "b"] PNone ["b"; "a"; "b"]).
  vm_compute; reflexivity.
Defined.

(** X3: the resolution order is a fixed point of the ordering: calling
    again with the obtained resolution order as [fixture_sequence] resolves
    the same variables in the same order. *)
Theorem X3_resolution_order_as_sequence_is_stable (d : gmap string generator) (l : list value)
    (fixture_sequence : value) (order : list string) :
  resolution_order d (PList l) fixture_sequence = Returns order ->
  resolution_order d (PList l) (list_of_str order) = Returns order.
Proof.
  rewrite !resolution_order_list.
  destruct (registered_vars_omap d l) as [[_ ->]|[_ ->]]; [|done]. simpl.
  intros Horder. f_equal. rewrite ordered_fixture_vars_omap.
  apply omap_in_order_id. intros v Hv.
  destruct fixture_sequence as [| | | |s|]; simpl in Horder; simplify_eq; try done.
  by apply elem_of_ordered_fixture_vars in Hv as [? _].
Qed.

Lemma X3_resolution_order_as_sequence_is_stable_witness :
  resolution_order dict_a_b (PList [PStr "a"; PStr "b"]) (PList [PStr "b"; PStr "a"; PStr "c"])
  = Returns ["b"; "a"]
  /\ resolution_order dict_a_b (PList [PStr "a"; PStr "b"]) (list_of_str ["b"; "a"])
     = Returns ["b"; "a"].
Proof.
  split; [vm_compute; reflexivity|].
  apply (X3_resolution_order_as_sequence_is_stable dict_a_b [PStr "a"; PStr "b"]
           (PList [PStr "b"; PStr "a"; PStr "c"]) ["b"; "a"]).
  vm_compute; reflexivity.
Defined.

Lemma in_order_registered (d : gmap string generator) (l : list value) (y : value) :
  y ∈ l -> in_order (omap (registered d) l) y = registered d y.
Proof.
  intros Hy. destruct y as [| |s| | |]; try done. simpl.
  destruct (decide (is_Some (d !! s))) as [Hs|Hs].
  - rewrite decide_True; [done|]. by apply elem_of_registered.
  - rewrite decide_False; [done|]. by intros [_ ?]%elem_of_registered.
Qed.

Lemma omap_in_order_registered (d : gmap string generator) (l k : list value) :
  (forall y, y ∈ k -> y ∈ l) ->
  omap (in_order (omap (registered d) l)) k = omap (registered d) k.
Proof.
  induction k as [|y k IH]; intros Hsub; [done|].
  change (omap ?f (?x :: ?k)) with (from_option (fun z => z :: omap f k) (omap f k) (f x)).
  rewrite in_order_registered by (apply Hsub; left).
  rewrite IH; [done|]. intros y' Hy'. apply Hsub. by right.
Qed.

(** X4: passing [fixture_vars] itself as [fixture_sequence] is the same as
    passing no [fixture_sequence]: same resolution order, same exception. *)
Theorem X4_fixture_vars_as_own_sequence (d : gmap string generator) (l : list value) :
  resolution_order d (PList l) (PList l) = resolution_order d (PList l) PNone.
Proof.
  rewrite !resolution_order_list.
  destruct (registered_vars_omap d l) as [[_ ->]|[_ ->]]; [|done]. simpl.
  f_equal. rewrite ordered_fixture_vars_omap. by apply omap_in_order_registered.
Qed.

(** ** The keyword arguments of a generator call *)

Lemma make_kwargs_dict_zip (old_fixture_vars : list string) (fixture : list value) :
  make_kwargs old_fixture_vars fixture = dict_zip old_fixture_vars fixture.
Proof.
  unfold make_kwargs. case_decide as Hz; [|done].
  by destruct old_fixture_vars.
Qed.

Lemma dict_zip_is_Some (keys : list string) (values : list value) (k : string) :
  length keys = length values ->
  is_Some (dict_zip keys values !! k) <-> k ∈ keys.
Proof.
  revert values. induction keys as [|k0 keys IH] using rev_ind; intros values Hlen.
  - destruct values; [|done]. unfold dict_zip. simpl. rewrite lookup_empty.
    split; [by intros [? ?] | by intros ?%elem_of_nil].
  - induction values as [|x values _] using rev_ind.
    { rewrite length_app in Hlen. simpl in Hlen. lia. }
    rewrite !length_app in Hlen. simpl in Hlen.
    assert (length keys = length values) as Hlen' by lia.
    rewrite dict_zip_snoc by done. rewrite elem_of_app, list_elem_of_singleton.
    destruct (decide (k = k0)) as [->|Hne].
    + rewrite lookup_insert_eq. split; [by right | by eexists].
    + rewrite lookup_insert_ne by done. rewrite (IH values Hlen').
      split; [by left | by intros [?|?]].
Qed.

Lemma dict_zip_lookup_NoDup (keys : list string) (values : list value) (i : nat) (k : string) :
  length keys = length values -> NoDup keys -> keys !! i = Some k ->
  dict_zip keys values !! k = values !! i.
Proof.
  revert values. induction keys as [|k0 keys IH] using rev_ind; intros values Hlen Hnd Hi.
  - done.
  - induction values as [|x values _] using rev_ind.
    { rewrite length_app in Hlen. simpl in Hlen. lia. }
    rewrite !length_app in Hlen. simpl in Hlen.
    assert (length keys = length values) as Hlen' by lia.
    apply NoDup_app in Hnd as (Hnd & Hfresh & _).
    rewrite dict_zip_snoc by done.
    destruct (decide (i < length keys)) as [Hlt|Hge].
    + rewrite lookup_app_l in Hi by done.
      rewrite lookup_app_l by lia.
      rewrite lookup_insert_ne.
      * by apply IH.
      * intros ->. apply (Hfresh k); [by eapply list_elem_of_lookup_2 | left].
    + assert (i = length keys) as ->.
      { apply lookup_lt_Some in Hi. rewrite length_app in Hi. simpl in Hi. lia. }
      rewrite list_lookup_middle in Hi by done. simplify_eq.
      rewrite lookup_insert_eq. by rewrite list_lookup_middle.
Qed.

(** X5: on the branch of a partial tuple, which has one component per
    earlier variable, the keyword arguments that a generator is called with
    have exactly the earlier variables as keys, and, when these are
    distinct, each is bound to the component of its position. *)
Theorem X5_kwargs_bind_earlier_variables (old_fixture_vars : list string)
    (fixture : list value) :
  length old_fixture_vars = length fixture ->
  (forall k, is_Some (make_kwargs old_fixture_vars fixture !! k) <-> k ∈ old_fixture_vars)
  /\ (NoDup old_fixture_vars ->
      forall i k, old_fixture_vars !! i = Some k ->
        make_kwargs old_fixture_vars fixture !! k = fixture !! i).
Proof.
  intros Hlen. rewrite make_kwargs_dict_zip. split.
  - intros k. by apply dict_zip_is_Some.
  - intros Hnd i k Hi. by apply dict_zip_lookup_NoDup.
Qed.

Lemma X5_kwargs_bind_earlier_variables_witness :
  (forall k, is_Some (make_kwargs ["number"; "multiples"] [PInt 2; PInt 4] !! k)
             <-> k ∈ ["number"; "multiples"])
  /\ (NoDup ["number"; "multiples"] ->
      forall i k, ["number"; "multiples"] !! i = Some k ->
        make_kwargs ["number"; "multiples"] [PInt 2; PInt 4] !! k = [PInt 2; PInt 4] !! i).
Proof.
  apply (X5_kwargs_bind_earlier_variables ["number"; "multiples"] [PInt 2; PInt 4]).
  reflexivity.
Defined.

(** ** A resolved variable named like the parameter of [get_fixtures] *)

Lemma iter_for_no_yield {A B} (source : iterator A) (body : A -> iterator B) :
  (forall x, x ∈ yielded source -> yielded (body x) = []) ->
  yielded (iter_for source body) = [].
Proof.
  destruct source as [items e]. simpl.
  induction items as [|x items IH]; intros Hbody; [done|].
  rewrite iter_for_cons. unfold iter_chain.
  destruct (raised (body x)); simpl; rewrite (Hbody x) by left; [done|].
  simpl. apply IH. intros x' Hx'. apply Hbody. by right.
Qed.

Lemma rounds_no_yield (test_name : string) (d : gmap string generator)
    (todo old : list string) (acc : iterator fixture_and_name) :
  yielded acc = [] -> yielded (rounds test_name d acc old todo) = [].
Proof.
  revert acc old. induction todo as [|v rest IH]; intros acc old Hacc; [done|].
  simpl. apply IH. unfold one_fixture_prod. apply iter_for_no_yield.
  rewrite Hacc. by intros x ?%elem_of_nil.
Qed.

Lemma rounds_raised_of_empty (test_name : string) (d : gmap string generator)
    (todo old : list string) (e : option exn) :
  rounds test_name d (Iterator [] e) old todo = Iterator [] e.
Proof. revert old. induction todo as [|v rest IH]; intros old; [done|]. simpl. apply IH. Qed.

(** The round after a variable named ["fixture_var"]. *)
Lemma clash_round (test_name : string) (d : gmap string generator)
    (acc : iterator fixture_and_name) (old : list string) (fixture_var : string) :
  (forall p, p ∈ yielded acc -> length p.1 = length old) ->
  "fixture_var" ∈ old ->
  one_fixture_prod test_name d acc old fixture_var
  = Iterator [] (match yielded acc with
                 | [] => raised acc
                 | _ :: _ => Some (TypeError (multiple_values_for_argument "fixture_var"))
                 end).
Proof.
  intros Hlen Hin. destruct acc as [items e]. simpl in *.
  destruct items as [|[fixture nms] items]; [done|].
  rewrite one_fixture_prod_cons. rewrite candidates_clash; [done|].
  rewrite make_kwargs_dict_zip. apply dict_zip_is_Some; [|done].
  symmetry. apply (Hlen (fixture, nms)). left.
Qed.

(** X6: when a resolved variable other than the last is named
    ["fixture_var"], no fixture value and no fixture name is ever yielded;
    and when the rounds up to that variable yield a partial tuple, the
    iterator that is drained first raises the [TypeError] of the clashing
    keyword, and the other one ends without an exception. *)
Theorem X6_nothing_after_a_variable_named_fixture_var (test_name : string)
    (d : gmap string generator) (fixture_vars fixture_sequence : value) (order : list string)
    (i : nat) (param_str : string) (values : iterator value) (names : iterator string)
    (drained_first : drain_order) :
  resolution_order d fixture_vars fixture_sequence = Returns order ->
  order !! i = Some "fixture_var" ->
  S i < length order ->
  create_conditional_fixtures_and_names test_name fixture_vars d fixture_sequence drained_first
  = Returns (param_str, values, names) ->
  yielded values = [] /\ yielded names = []
  /\ (yielded (fixture_prods_and_names test_name d (take (S i) order)) <> [] ->
      match drained_first with
      | values_first =>
          raised values = Some (TypeError (multiple_values_for_argument "fixture_var"))
          /\ raised names = None
      | names_first =>
          raised names = Some (TypeError (multiple_values_for_argument "fixture_var"))
          /\ raised values = None
      end).
Proof.
  intros Horder Hi Hlt Hcall. rewrite (create_returns _ _ _ _ _ _ Horder) in Hcall.
  assert (exists w post, drop (S i) order = w :: post) as (w & post & Hdrop).
  { destruct (drop (S i) order) as [|w post] eqn:Hd; [|by eexists _, _].
    apply (f_equal length) in Hd. rewrite length_drop in Hd. simpl in Hd. lia. }
  assert (fixture_prods_and_names test_name d order
          = rounds test_name d
              (one_fixture_prod test_name d
                 (fixture_prods_and_names test_name d (take (S i) order)) (take (S i) order) w)
              (take (S i) order ++ [w]) post) as Hstream.
  { rewrite <- (take_drop (S i) order) at 1.
    by rewrite fixture_prods_and_names_rounds, Hdrop. }
  rewrite clash_round in Hstream.
  - rewrite rounds_raised_of_empty in Hstream. rewrite Hstream in Hcall. simpl in Hcall.
    destruct (yielded (fixture_prods_and_names test_name d (take (S i) order))) as [|q qs];
      destruct drained_first; injection Hcall as _ <- <-; by repeat split.
  - intros [fixture nms] Hp. apply fixture_prods_and_names_generated in Hp.
    by apply generated_length in Hp as [? _].
  - apply list_elem_of_lookup. exists i. rewrite lookup_take_lt by lia. done.
Qed.

Lemma X6_nothing_after_a_variable_named_fixture_var_witness :
  resolution_order dict_fixture_var_b (list_of_str ["fixture_var"; "b"]) PNone
  = Returns ["fixture_var"; "b"]
  /\ yielded (Iterator (A:=value) []
               (Some (TypeError (multiple_values_for_argument "fixture_var")))) = []
  /\ yielded (Iterator (A:=string) [] None) = [].
Proof.
  split; [vm_compute; reflexivity|].
  destruct (X6_nothing_after_a_variable_named_fixture_var "test" dict_fixture_var_b
              (list_of_str ["fixture_var"; "b"]) PNone ["fixture_var"; "b"] 0 "fixture_var,b"
              (Iterator [] (Some (TypeError (multiple_values_for_argument "fixture_var"))))
              (Iterator [] None) values_first)
    as (Hvalues & Hnames & _); [vm_compute; reflexivity | reflexivity | simpl; lia
                               | vm_compute; reflexivity | exact (conj Hvalues Hnames)].
Defined.

(** ** The number of fixture values and names *)

Lemma starmap_complete {A B} (f : A -> result B) (source : iterator A) :
  raised (starmap f source) = None ->
  raised source = None /\ length (yielded (starmap f source)) = length (yielded source).
Proof.
  destruct source as [items e]. simpl.
  induction items as [|x items IH]; [done|].
  unfold starmap in *. rewrite iter_for_cons.
  destruct (f x) as [y|err]; simpl; [|done].
  intros Hr. destruct (IH Hr) as [He Hlen]. by rewrite Hlen.
Qed.

Lemma reaches_end_true {A B} (f : A -> result B) (g : A -> B) (source : iterator A) :
  (forall x, x ∈ yielded source -> f x = Returns (g x)) -> reaches_end f source = true.
Proof.
  intros Hf. unfold reaches_end. apply forallb_forall. intros x Hx.
  rewrite (Hf x); [done|]. by apply list_elem_of_In.
Qed.

(** The results of a call in which every name list is joined without an
    exception: the exception of the expansion, when there is one, reaches
    the iterator that is drained first. *)
Lemma create_total (test_name : string) (d : gmap string generator)
    (fixture_vars fixture_sequence : value) (order : list string) (drained_first : drain_order)
    (g : fixture_and_name -> string) :
  resolution_order d fixture_vars fixture_sequence = Returns order ->
  (forall p, p ∈ yielded (fixture_prods_and_names test_name d order) ->
     make_fixture_name p = Returns (g p)) ->
  create_conditional_fixtures_and_names test_name fixture_vars d fixture_sequence drained_first
  = Returns (String.concat "," order,
             Iterator (map (fun p => _remove_single p.1)
                         (yielded (fixture_prods_and_names test_name d order)))
                      (match drained_first with
                       | values_first => raised (fixture_prods_and_names test_name d order)
                       | names_first => None
                       end),
             Iterator (map g (yielded (fixture_prods_and_names test_name d order)))
                      (match drained_first with
                       | values_first => None
                       | names_first => raised (fixture_prods_and_names test_name d order)
                       end)).
Proof.
  intros Horder Hg. rewrite (create_returns _ _ _ _ _ _ Horder).
  destruct drained_first.
  - by rewrite (starmap_total make_fixture_name g) by done.
  - by rewrite (reaches_end_true _ g), (starmap_total make_fixture_name g) by done.
Qed.

Lemma generated_snoc_inv (test_name : string) (d : gmap string generator)
    (vars : list string) (v : string) (p : fixture_and_name) :
  generated test_name d (vars ++ [v]) p ->
  exists fixture names x nm,
    generated test_name d vars (fixture, names)
    /\ (x, nm) ∈ yielded (candidates test_name d v (make_kwargs vars fixture))
    /\ p = (map deepcopy fixture ++ [deepcopy x], names ++ [nm]).
Proof.
  intros H. inversion H as [Hnil | vars' v' f n x nm Hgen Hc Heq]; simplify_eq.
  - by destruct vars.
  - apply app_inj_tail in Heq as [-> ->]. by exists f, n, x, nm.
Qed.

(** Generators that return lists, when called with keywords among the
    earlier variables, give name lists of strings. *)
Lemma generated_list_names (test_name : string) (d : gmap string generator)
    (order : list string) (p : fixture_and_name) :
  generated test_name d order p ->
  (forall i v, order !! i = Some v ->
     exists gen, d !! v = Some gen
       /\ forall kwargs, (forall k, is_Some (kwargs !! k) -> k ∈ take i order) ->
            exists l, gen test_name kwargs = Return (PList l)) ->
  exists strs, p.2 = PStr <$> strs.
Proof.
  induction 1 as [|vars v f n x nm Hgen IH Hc]; intros Hlist.
  - by exists [].
  - destruct IH as [strs Hn].
    { intros i v' Hi. pose proof (lookup_lt_Some _ _ _ Hi) as Hlt.
      destruct (Hlist i v') as (gen & Hg & Hl); [by rewrite lookup_app_l|].
      exists gen. split; [done|]. intros kwargs Hkeys. apply Hl.
      intros k Hk. rewrite take_app_le by lia. by apply Hkeys. }
    simpl in Hn. subst n.
    destruct (Hlist (length vars) v) as (gen & Hg & Hl).
    { by rewrite lookup_app_r, Nat.sub_diag by lia. }
    destruct (make_kwargs vars f !! "fixture_var") as [y|] eqn:Hk.
    + rewrite candidates_clash in Hc by (by rewrite Hk). by apply elem_of_nil in Hc.
    + destruct (Hl (make_kwargs vars f)) as [l Hres].
      { intros k Hsome. rewrite take_app_length. by eapply make_kwargs_keys. }
      rewrite (candidates_list _ _ _ _ _ _ Hg Hres Hk) in Hc. simpl in Hc.
      apply list_elem_of_fmap in Hc as (x' & Hc & _). simplify_eq.
      exists (strs ++ [py_str x']). simpl. by rewrite fmap_app.
Qed.

(** X7: when the generator of every resolved variable, called with
    keywords among the variables before it, returns a list of a fixed
    length, and no resolved variable but the last is named ["fixture_var"],
    the values and the names are iterated to their end without an
    exception, in whichever order they are drained, and there are as many
    of each as the product of the list lengths over the resolution order. *)
Theorem X7_count_is_product_of_list_lengths (test_name : string) (d : gmap string generator)
    (fixture_vars fixture_sequence : value) (order : list string) (size : string -> nat)
    (param_str : string) (values : iterator value) (names : iterator string)
    (drained_first : drain_order) :
  resolution_order d fixture_vars fixture_sequence = Returns order ->
  (forall i v, order !! i = Some v ->
     exists gen, d !! v = Some gen
       /\ forall kwargs, (forall k, is_Some (kwargs !! k) -> k ∈ take i order) ->
            exists l, gen test_name kwargs = Return (PList l) /\ length l = size v) ->
  (forall i v, order !! i = Some v -> S i < length order -> v <> "fixture_var") ->
  create_conditional_fixtures_and_names test_name fixture_vars d fixture_sequence drained_first
  = Returns (param_str, values, names) ->
  raised values = None /\ raised names = None
  /\ length (yielded values) = product (size <$> order)
  /\ length (yielded names) = product (size <$> order).
Proof.
  intros Horder Hgen Hclash Hcall.
  destruct (count_is_product test_name d order size Hgen Hclash) as [Hraised Hcount].
  rewrite (create_total _ _ _ _ _ _
             (fun p => match make_fixture_name p with
                       | Returns s => s
                       | Raises _ => EmptyString
                       end) Horder) in Hcall.
  - injection Hcall as _ <- <-. simpl. rewrite Hraised, !length_map.
    by destruct drained_first.
  - intros [fixture nms] Hp. apply fixture_prods_and_names_generated in Hp.
    destruct (generated_list_names _ _ _ _ Hp) as [strs Hn].
    + intros i v Hi. destruct (Hgen i v Hi) as (gen & Hg & Hlist).
      exists gen. split; [done|]. intros kwargs Hkeys.
      destruct (Hlist kwargs Hkeys) as (l & Hl & _). by exists l.
    + simpl in Hn. subst nms. by rewrite make_fixture_name_strs.
Qed.

Lemma X7_count_is_product_of_list_lengths_witness :
  resolution_order dict_a_b (list_of_str ["a"; "b"]) PNone = Returns ["a"; "b"]
  /\ length (yielded (Iterator [PTuple [PInt 1; PInt 1]; PTuple [PInt 1; PInt 2];
                                PTuple [PInt 2; PInt 1]; PTuple [PInt 2; PInt 2]] None))
     = product ((fun _ => 2) <$> ["a"; "b"]).
Proof.
  split; [vm_compute; reflexivity|].
  destruct (X7_count_is_product_of_list_lengths "test" dict_a_b
              (list_of_str ["a"; "b"]) PNone ["a"; "b"] (fun _ => 2) "a,b"
              (Iterator [PTuple [PInt 1; PInt 1]; PTuple [PInt 1; PInt 2];
                         PTuple [PInt 2; PInt 1]; PTuple [PInt 2; PInt 2]] None)
              (Iterator ["1-1"; "1-2"; "2-1"; "2-2"] None) names_first)
    as (_ & _ & Hcount & _).
  - vm_compute; reflexivity.
  - intros i v Hi. exists gen_1_2. split.
    + destruct i as [|[|i]]; simpl in Hi; simplify_eq; vm_compute; reflexivity.
    + intros kwargs Hkeys. exists [PInt 1; PInt 2]. split; [|done].
      unfold gen_1_2, gen_returning. case_decide as Hsome; [|done].
      apply Hkeys in Hsome. destruct i as [|[|i]]; simpl in Hi, Hsome; simplify_eq.
      * by apply elem_of_nil in Hsome.
      * by apply list_elem_of_singleton in Hsome.
  - intros [|[|i]] v Hi Hlt; simpl in *; simplify_eq; try done; lia.
  - vm_compute; reflexivity.
  - exact Hcount.
Defined.

(** X8: whenever the iterator that is drained first is iterated to its
    end without an exception, the number of values is the size of the
    conditional tree: the number of ways to pick, for each resolved variable
    in turn, one of the candidates that its generator yields on the branch
    picked so far. *)
Theorem X8_count_is_conditional_tree_size (test_name : string) (d : gmap string generator)
    (fixture_vars fixture_sequence : value) (order : list string)
    (param_str : string) (values : iterator value) (names : iterator string)
    (drained_first : drain_order) :
  resolution_order d fixture_vars fixture_sequence = Returns order ->
  create_conditional_fixtures_and_names test_name fixture_vars d fixture_sequence drained_first
  = Returns (param_str, values, names) ->
  match drained_first with
  | values_first => raised values
  | names_first => raised names
  end = None ->
  length (yielded values) = tree_size test_name d [] [] order.
Proof.
  intros Horder Hcall Hr.
  destruct (create_yielded _ _ _ _ _ _ _ _ _ Horder Hcall) as [-> _].
  rewrite length_map. apply count_is_tree_size.
  rewrite (create_returns _ _ _ _ _ _ Horder) in Hcall.
  destruct drained_first; injection Hcall as _ <- <-; [done|].
  by apply starmap_complete in Hr as [? _].
Qed.

Lemma X8_count_is_conditional_tree_size_witness :
  resolution_order dict_number_multiples (list_of_str ["number"; "multiples"]) PNone
  = Returns ["number"; "multiples"]
  /\ length (yielded (Iterator [PTuple [PInt 1; PInt 1]; PTuple [PInt 2; PInt 2];
                                PTuple [PInt 2; PInt 4]] None))
     = tree_size "test" dict_number_multiples [] [] ["number"; "multiples"].
Proof.
  split; [vm_compute; reflexivity|].
  apply (X8_count_is_conditional_tree_size "test" dict_number_multiples
           (list_of_str ["number"; "multiples"]) PNone ["number"; "multiples"]
           "number,multiples"
           (Iterator [PTuple [PInt 1; PInt 1]; PTuple [PInt 2; PInt 2];
                      PTuple [PInt 2; PInt 4]] None)
           (Iterator ["1-1"; "2-2"; "2-4"] None) values_first);
    vm_compute; reflexivity.
Defined.

(** A branch on which the candidates cannot be iterated cuts short the
    iterator that is drained second: it ends with one item and no exception,
    while the tree has two leaves. *)
Example second_iterator_is_cut_short :
  create_conditional_fixtures_and_names "test" (list_of_str ["a"; "b"]) dict_a_b_pair_at_2
    PNone names_first
  = Returns ("a,b", Iterator [PTuple [PInt 1; PInt 10]] None,
             Iterator ["1-10"] (Some (TypeError not_iterable)))
  /\ create_conditional_fixtures_and_names "test" (list_of_str ["a"; "b"]) dict_a_b_pair_at_2
       PNone values_first
     = Returns ("a,b", Iterator [PTuple [PInt 1; PInt 10]] (Some (TypeError not_iterable)),
                Iterator ["1-10"] None)
  /\ tree_size "test" dict_a_b_pair_at_2 [] [] ["a"; "b"] = 2.
Proof. repeat split; vm_compute; reflexivity. Qed.

(** X10: when the names are iterated to their end without an exception,
    there are as many values as names, whatever the generators return as
    display names and in whichever order the two iterators are drained; and
    when the names are drained first, the values too are then iterated to
    their end without an exception. *)
Theorem X10_names_exhausted_implies_as_many_values (test_name : string)
    (d : gmap string generator) (fixture_vars fixture_sequence : value) (order : list string)
    (param_str : string) (values : iterator value) (names : iterator string)
    (drained_first : drain_order) :
  resolution_order d fixture_vars fixture_sequence = Returns order ->
  create_conditional_fixtures_and_names test_name fixture_vars d fixture_sequence drained_first
  = Returns (param_str, values, names) ->
  raised names = None ->
  length (yielded values) = length (yielded names)
  /\ (drained_first = names_first -> raised values = None).
Proof.
  intros Horder Hcall. rewrite (create_returns _ _ _ _ _ _ Horder) in Hcall.
  destruct drained_first; injection Hcall as _ <- <-; simpl; intros Hr.
  - destruct (starmap_complete _ _ Hr) as [_ Hlen]. simpl in Hlen.
    by rewrite length_map, Hlen.
  - destruct (starmap_complete _ _ Hr) as [Hnone Hlen]. rewrite length_map, Hlen.
    split; [done|]. intros _. by destruct (reaches_end _ _).
Qed.

Lemma X10_names_exhausted_implies_as_many_values_witness :
  resolution_order dict_number (list_of_str ["number"]) PNone = Returns ["number"]
  /\ raised (Iterator ["1"; "2"; "3"] None) = None
  /\ length (yielded (Iterator [PInt 1; PInt 2; PInt 3] None))
     = length (yielded (Iterator ["1"; "2"; "3"] None)).
Proof.
  split; [vm_compute; reflexivity|]. split; [reflexivity|].
  apply (X10_names_exhausted_implies_as_many_values "test" dict_number
           (list_of_str ["number"]) PNone ["number"] "number"
           (Iterator [PInt 1; PInt 2; PInt 3] None) (Iterator ["1"; "2"; "3"] None)
           names_first);
    vm_compute; reflexivity.
Defined.

(** ** Copies of the generation error *)

Lemma string_length_append (s1 s2 : string) :
  String.length (s1 +:+ s2) = String.length s1 + String.length s2.
Proof. induction s1 as [|c s1 IH]; simpl; [done | by rewrite IH]. Qed.

Lemma deepcopy_PErr (n m : string) :
  deepcopy (PErr n m) = PErr n ("fixture " +:+ (m +:+ " ") +:+ "failed to generate").
Proof. reflexivity. Qed.

(** Every copy of a generation error keeps the attribute [fixture_name],
    but not the message: each [deepcopy] rebuilds the error with the old
    message as its fixture name, so that the message of the k-th copy is 27
    characters longer than that of the copy before. *)
Lemma copies_of_error (fixture_var : string) (k : nat) :
  fixture_name_of (Nat.iter k deepcopy (FixtureGenerationError fixture_var)) = Some fixture_var
  /\ message_length (Nat.iter k deepcopy (FixtureGenerationError fixture_var))
     = String.length fixture_var + 27 * S k.
Proof.
  assert (exists m, Nat.iter k deepcopy (FixtureGenerationError fixture_var) = PErr fixture_var m
                    /\ String.length m = String.length fixture_var + 27 * S k) as (m & -> & Hm).
  { induction k as [|k (m & IH & Hm)].
    - eexists. split; [reflexivity|].
      rewrite !string_length_append. simpl. lia.
    - rewrite Nat.iter_succ, IH, deepcopy_PErr. eexists. split; [reflexivity|].
      rewrite !string_length_append, Hm. simpl. lia. }
  by split.
Qed.

(** The component of a variable whose generator raises, in the tuples of
    the expansion: the error, copied once in its own round and once more in
    every later round. *)
Lemma generated_error_component (test_name : string) (d : gmap string generator)
    (pre : list string) (v : string) (post : list string) (gen : generator)
    (p : fixture_and_name) :
  d !! v = Some gen ->
  (forall kwargs, gen test_name kwargs = Raise) ->
  generated test_name d (pre ++ v :: post) p ->
  p.1 !! length pre = Some (Nat.iter (S (length post)) deepcopy (FixtureGenerationError v))
  /\ p.2 !! length pre = Some (PStr ("Error:" +:+ v)).
Proof.
  intros Hg Hraise. revert p. induction post as [|w post IH] using rev_ind; intros p Hp.
  - apply generated_snoc_inv in Hp as (f & n & x & nm & Hgen & Hc & ->).
    apply generated_length in Hgen as [Hf Hn].
    destruct (make_kwargs pre f !! "fixture_var") as [y|] eqn:Hk.
    + rewrite candidates_clash in Hc by (by rewrite Hk). by apply elem_of_nil in Hc.
    + rewrite (candidates_reached _ _ _ _ Hk), (get_fixtures_raise _ _ _ _ _ Hg (Hraise _)) in Hc.
      apply list_elem_of_singleton in Hc. simplify_eq. simpl. split.
      * rewrite lookup_app_r by (rewrite length_map; lia).
        by rewrite length_map, Hf, Nat.sub_diag.
      * rewrite lookup_app_r by lia. by rewrite Hn, Nat.sub_diag.
  - rewrite app_comm_cons, app_assoc in Hp.
    apply generated_snoc_inv in Hp as (f & n & x & nm & Hgen & Hc & ->).
    destruct (IH _ Hgen) as [Hf Hn]. simpl in Hf, Hn.
    rewrite length_app, Nat.add_1_r. simpl. split.
    + rewrite lookup_app_l by (rewrite length_map; by eapply lookup_lt_Some).
      change (map deepcopy f) with (deepcopy <$> f). by rewrite list_lookup_fmap, Hf.
    + rewrite lookup_app_l by (by eapply lookup_lt_Some). done.
Qed.

(** X11: when the generator of a resolved variable raises, every fixture
    tuple holds, at the position of that variable, a copy of the generation
    error: one copy made in the round of the variable, and one copy more for
    every later round. The copy keeps the attribute [fixture_name] of the
    error, but its message has grown by 27 characters with every copy; the
    display name at that position is ["Error:"] followed by the variable. *)
Theorem X11_copies_of_error_keep_name_and_grow_message (test_name : string)
    (d : gmap string generator) (pre : list string) (v : string) (post : list string)
    (gen : generator) (p : fixture_and_name) :
  d !! v = Some gen ->
  (forall kwargs, gen test_name kwargs = Raise) ->
  p ∈ yielded (fixture_prods_and_names test_name d (pre ++ v :: post)) ->
  exists e,
    p.1 !! length pre = Some e
    /\ e = Nat.iter (S (length post)) deepcopy (FixtureGenerationError v)
    /\ fixture_name_of e = Some v
    /\ message_length e = String.length v + 27 * (length post + 2)
    /\ p.2 !! length pre = Some (PStr ("Error:" +:+ v)).
Proof.
  intros Hg Hraise Hp. apply fixture_prods_and_names_generated in Hp.
  destruct (generated_error_component _ _ _ _ _ _ _ Hg Hraise Hp) as [Hf Hn].
  destruct (copies_of_error v (S (length post))) as [Hname Hlen].
  eexists. split; [exact Hf|]. split; [done|]. split; [done|]. split; [|done].
  rewrite Hlen. lia.
Qed.

Lemma X11_copies_of_error_keep_name_and_grow_message_witness :
  dict_a_raises_b !! "a" = Some gen_raises
  /\ exists e,
       [PErr "a" "fixture fixture fixture a failed to generate failed to generate failed to generate";
        PInt 1] !! 0 = Some e
       /\ fixture_name_of e = Some "a"
       /\ message_length e = 1 + 27 * 3.
Proof.
  split; [vm_compute; reflexivity|].
  destruct (X11_copies_of_error_keep_name_and_grow_message "test" dict_a_raises_b
              [] "a" ["b"] gen_raises
              ([PErr "a" "fixture fixture fixture a failed to generate failed to generate failed to generate";
                PInt 1],
               [PStr "Error:a"; PStr "1"]))
    as (e & He & _ & Hname & Hlen & _).
  - vm_compute; reflexivity.
  - reflexivity.
  - vm_compute. left.
  - exists e. by repeat split.
Defined.

(** ** The three shapes of a generator result *)

Lemma unpack2_pair_obj (c : value * value) : unpack2 (pair_obj c) = Returns c.
Proof. by destruct c. Qed.

Lemma starmap_pair_objs (pairs : list (value * value)) :
  starmap unpack2 (iter_of_list (pair_obj <$> pairs)) = iter_of_list pairs.
Proof.
  rewrite (starmap_total unpack2
             (fun x => match unpack2 x with Returns c => c | Raises _ => (PNone, PNone) end)).
  - simpl. unfold iter_of_list. f_equal.
    induction pairs as [|c pairs IH]; [done|].
    rewrite fmap_cons. simpl. rewrite IH. by destruct c.
  - simpl. intros x (c & -> & _)%list_elem_of_fmap. by rewrite unpack2_pair_obj.
Qed.

(** X12: a generator may return its candidates and their display names as
    the pair of the two lists or as a tuple of (value, name) pairs: both
    give the same candidates, except that a tuple of exactly two
    (value, name) pairs is read as the pair (values, names), which pairs
    the two values with each other and the two names with each other. *)
Theorem X12_pairs_of_lists_and_lists_of_pairs (test_name : string) (d : gmap string generator)
    (fixture_var : string) (gen : generator) (kwargs : gmap string value)
    (pairs : list (value * value)) :
  d !! fixture_var = Some gen ->
  kwargs !! "fixture_var" = None ->
  (gen test_name kwargs = Return (PTuple [PList pairs.*1; PList pairs.*2]) ->
   candidates test_name d fixture_var kwargs = iter_of_list pairs)
  /\ (length pairs <> 2 ->
      gen test_name kwargs = Return (PTuple (pair_obj <$> pairs)) ->
      candidates test_name d fixture_var kwargs = iter_of_list pairs)
  /\ (forall x1 n1 x2 n2,
        gen test_name kwargs = Return (PTuple [PTuple [x1; n1]; PTuple [x2; n2]]) ->
        candidates test_name d fixture_var kwargs = iter_of_list [(x1, x2); (n1, n2)]).
Proof.
  intros Hg Hk. rewrite (candidates_reached _ _ _ _ Hk). unfold get_fixtures. rewrite Hg.
  split; [|split].
  - intros ->. unfold zip_fixtures, py_zip. simpl. by rewrite zip_items_lists, zip_fst_snd.
  - intros Hlen ->.
    assert (match PTuple (pair_obj <$> pairs) with
            | PTuple [res0; res1] => Two (Obj res0) (Obj res1)
            | PList l =>
                Two (Obj (PTuple (pair_obj <$> pairs)))
                    (Obj (PList (map (fun x => PStr (py_str x)) l)))
            | _ => starmap_branch fixture_var (PTuple (pair_obj <$> pairs))
            end = starmap_branch fixture_var (PTuple (pair_obj <$> pairs))) as ->.
    { by destruct pairs as [|? [|? [|? ?]]]. }
    unfold starmap_branch, zip_fixtures, py_zip. simpl.
    rewrite (zip_items_starmap (pair_obj <$> pairs)). apply starmap_pair_objs.
  - intros x1 n1 x2 n2 ->. reflexivity.
Qed.

Lemma X12_pairs_of_lists_and_lists_of_pairs_witness :
  candidates "test" dict_a_three_pairs "a" ∅
  = iter_of_list [(PInt 1, PStr "one"); (PInt 2, PStr "two"); (PInt 3, PStr "three")].
Proof.
  destruct (X12_pairs_of_lists_and_lists_of_pairs "test" dict_a_three_pairs "a"
              gen_three_pairs ∅
              [(PInt 1, PStr "one"); (PInt 2, PStr "two"); (PInt 3, PStr "three")])
    as (_ & Hpairs & _); [vm_compute; reflexivity ..|].
  apply Hpairs; [simpl; lia | reflexivity].
Defined.

(** ** Items of [fixture_sequence] that are not strings *)

Lemma omap_in_order_filter_str (filtered : list string) (s : list value) :
  omap (in_order filtered) (List.filter isinstance_str s) = omap (in_order filtered) s.
Proof.
  induction s as [|x s IH]; [done|]. cbn [List.filter].
  destruct (isinstance_str x) eqn:Hx.
  - change (omap ?f (?x :: ?k)) with (from_option (fun z => z :: omap f k) (omap f k) (f x)).
    by rewrite IH.
  - rewrite IH.
    change (omap ?f (?x :: ?k)) with (from_option (fun z => z :: omap f k) (omap f k) (f x)).
    by destruct x.
Qed.

(** X13: the items of a list [fixture_sequence] that are not strings are
    ignored: they raise nothing, whether hashable or not, and the
    resolution order is the one of [fixture_sequence] without them. *)
Theorem X13_non_str_items_of_sequence_are_ignored (d : gmap string generator)
    (fixture_vars : value) (s : list value) :
  resolution_order d fixture_vars (PList s)
  = resolution_order d fixture_vars (PList (List.filter isinstance_str s)).
Proof.
  unfold resolution_order.
  destruct (_check_list_of_str fixture_vars "fixture_vars") as [obj|e]; [|done]. simpl.
  destruct (registered_vars d (default [] (py_iter obj))) as [filtered|e]; [|done]. simpl.
  by rewrite !ordered_fixture_vars_omap, omap_in_order_filter_str.
Qed.

(** ** Sibling branches *)

Lemma iter_chain_assoc {A} (a b c : iterator A) :
  iter_chain (iter_chain a b) c = iter_chain a (iter_chain b c).
Proof.
  unfold iter_chain. destruct a as [ya [ea|]], b as [yb [eb|]]; simpl; try done.
  by rewrite app_assoc.
Qed.

Lemma iter_for_app {A B} (l1 l2 : list A) (e : option exn) (body : A -> iterator B) :
  iter_for (Iterator (l1 ++ l2) e) body
  = iter_chain (iter_for (Iterator l1 None) body) (iter_for (Iterator l2 e) body).
Proof.
  induction l1 as [|x l1 IH]; simpl.
  - rewrite iter_for_nil. unfold iter_chain. simpl. by destruct (iter_for _ _).
  - rewrite !iter_for_cons, IH. by rewrite iter_chain_assoc.
Qed.

(** X14: a round extends every partial tuple on its own and in turn: the
    round over the partial tuples [l1 ++ l2] yields what the round over
    [l1] yields, followed by what the round over [l2] yields, unless the
    round over [l1] raises, which ends the iteration there. *)
Theorem X14_round_extends_branches_independently (test_name : string)
    (d : gmap string generator) (l1 l2 : list fixture_and_name) (e : option exn)
    (old_fixture_vars : list string) (fixture_var : string) :
  one_fixture_prod test_name d (Iterator (l1 ++ l2) e) old_fixture_vars fixture_var
  = iter_chain
      (one_fixture_prod test_name d (Iterator l1 None) old_fixture_vars fixture_var)
      (one_fixture_prod test_name d (Iterator l2 e) old_fixture_vars fixture_var).
Proof. unfold one_fixture_prod. apply iter_for_app. Qed.
